(** * Civic SIP client: the token module and the client factory

    A shallow embedding of [src/lib/jwt.js] and [src/index.js], and the
    properties of the hosted-service exchange that follow from the code.

    JavaScript values are a first-order data type, exceptions an error
    result, and the calls whose order matters (request, verification,
    decoding, decryption) are recorded in a log that the client functions
    thread through a small monad.  The npm packages the two files call
    (jsrsasign, crypto-js, lodash.merge, json-stable-stringify,
    unix-timestamp, uuid) and the parts of the repository they require
    from [./lib] are collaborators: their primitives are fields of the
    [Library] class, and what the program reads from its surroundings
    (clock, random identifier, HTTP transport) are fields of [world]. *)

From Stdlib Require Import List String Ascii ZArith Bool Lia Permutation.
From Stdlib Require Import DecimalString.
Import ListNotations.
Open Scope string_scope.
Open Scope Z_scope.

(** ** JavaScript values *)

(** Numbers are kept exactly, in thousandths: the only fractional numbers
    the program makes are clock readings, [Date.now() / 1000]. *)
Definition number := Z.

Definition int (n : Z) : number := n * 1000.

Unset Elimination Schemes.
Inductive value : Type :=
| VUndef
| VNull
| VBool (b : bool)
| VNum (n : number)
| VStr (s : string)
| VArr (items : list value)
| VObj (fields : list (string * value)).
Set Elimination Schemes.

Definition obj := list (string * value).

Section ValueInduction.
Variable P : value -> Prop.
Hypothesis Hundef : P VUndef.
Hypothesis Hnull : P VNull.
Hypothesis Hbool : forall b, P (VBool b).
Hypothesis Hnum : forall n, P (VNum n).
Hypothesis Hstr : forall s, P (VStr s).
Hypothesis Harr : forall l, Forall P l -> P (VArr l).
Hypothesis Hobj : forall fs, Forall (fun kv => P (snd kv)) fs -> P (VObj fs).

Fixpoint value_ind (v : value) : P v :=
  match v with
  | VUndef => Hundef
  | VNull => Hnull
  | VBool b => Hbool b
  | VNum n => Hnum n
  | VStr s => Hstr s
  | VArr l =>
      Harr l ((fix items (l : list value) : Forall P l :=
                 match l with
                 | [] => Forall_nil _
                 | x :: r => Forall_cons x (value_ind x) (items r)
                 end) l)
  | VObj fs =>
      Hobj fs ((fix fields (fs : obj) : Forall (fun kv => P (snd kv)) fs :=
                  match fs with
                  | [] => Forall_nil _
                  | kv :: r => Forall_cons kv (value_ind (snd kv)) (fields r)
                  end) fs)
  end.
End ValueInduction.

(** What a [throw] carries: an [Error] with its message, a [TypeError]
    raised by the language itself, or a value rejected by a collaborator. *)
Inductive thrown : Type :=
| JsError (message : string)
| JsTypeError (message : string)
| JsThrown (v : value).

Inductive result (A : Type) : Type :=
| Ok (a : A)
| Throw (e : thrown).
Arguments Ok {A} a.
Arguments Throw {A} e.

(** [obj[key]] on an object's own fields. *)
Fixpoint lookup (k : string) (fs : obj) : option value :=
  match fs with
  | [] => None
  | (k', v) :: r => if String.eqb k k' then Some v else lookup k r
  end.

Definition has_key (k : string) (fs : obj) : bool :=
  match lookup k fs with Some _ => true | None => false end.

(** [obj[key] = v]: an existing key keeps its place, a new one goes last. *)
Fixpoint set_field (k : string) (v : value) (fs : obj) : obj :=
  match fs with
  | [] => [(k, v)]
  | (k', v') :: r =>
      if String.eqb k k' then (k, v) :: r else (k', v') :: set_field k v r
  end.

(** [v.key] for the property names the program reads: none of them is a
    built-in property of a primitive or of an array. *)
Definition prop (v : value) (k : string) : result value :=
  match v with
  | VUndef =>
      Throw (JsTypeError ("Cannot read property '" ++ k ++ "' of undefined"))
  | VNull =>
      Throw (JsTypeError ("Cannot read property '" ++ k ++ "' of null"))
  | VObj fs => Ok (match lookup k fs with Some x => x | None => VUndef end)
  | _ => Ok VUndef
  end.

(** ToBoolean. *)
Definition truthy (v : value) : bool :=
  match v with
  | VUndef | VNull => false
  | VBool b => b
  | VNum n => negb (n =? 0)
  | VStr s => negb (String.eqb s "")
  | VArr _ | VObj _ => true
  end.

Fixpoint join (sep : string) (l : list string) : string :=
  match l with
  | [] => ""
  | [x] => x
  | x :: r => x ++ sep ++ join sep r
  end.

Definition digits (n : Z) : string :=
  NilZero.string_of_uint (N.to_uint (Z.to_N n)).

(** Number::toString for a number of thousandths (below 1e21). *)
Definition number_to_string (m : number) : string :=
  let a := Z.abs m in
  let f := a mod 1000 in
  (if m <? 0 then "-" else "") ++ digits (a / 1000) ++
  (if f =? 0 then ""
   else if f mod 10 =? 0
        then if (f / 10) mod 10 =? 0
             then "." ++ digits (f / 100)
             else "." ++ digits (f / 100) ++ digits ((f / 10) mod 10)
        else "." ++ digits (f / 100) ++ digits ((f / 10) mod 10)
                 ++ digits (f mod 10)).

(** ToString. *)
Fixpoint to_string (v : value) : string :=
  match v with
  | VUndef => "undefined"
  | VNull => "null"
  | VBool b => if b then "true" else "false"
  | VNum n => number_to_string n
  | VStr s => s
  | VArr l =>
      join "," (map (fun x => match x with
                              | VUndef | VNull => ""
                              | _ => to_string x
                              end) l)
  | VObj _ => "[object Object]"
  end.

(** [new Error(message)]. *)
Definition Error_new (message : value) : thrown :=
  JsError (match message with VUndef => "" | m => to_string m end).

(** ** Serialization *)

Definition dquote : string := String (ascii_of_N 34) "".

Definition hex_digit (n : N) : ascii :=
  ascii_of_N (if (n <? 10)%N then 48 + n else 87 + n).

(** The JSON escape of one character of a string literal. *)
Definition escape_char (c : ascii) : string :=
  let n := N_of_ascii c in
  if (n =? 34)%N then "\" ++ dquote
  else if (n =? 92)%N then "\\"
  else if (n =? 8)%N then "\b"
  else if (n =? 12)%N then "\f"
  else if (n =? 10)%N then "\n"
  else if (n =? 13)%N then "\r"
  else if (n =? 9)%N then "\t"
  else if (n <? 32)%N
       then "\u00" ++ String (hex_digit (n / 16)) (String (hex_digit (n mod 16)) "")
       else String c "".

Fixpoint escape (s : string) : string :=
  match s with
  | EmptyString => ""
  | String c r => escape_char c ++ escape r
  end.

(** A string literal as [JSON.stringify] writes it. *)
Definition quote (s : string) : string := dquote ++ escape s ++ dquote.

(** The built-in [JSON.stringify(v)]: an object's fields in the object's
    own order, a field holding [undefined] left out, [undefined] in an
    array written as null; [None] is the result [undefined]. *)
Fixpoint JSON_stringify (v : value) : option string :=
  match v with
  | VUndef => None
  | VNull => Some "null"
  | VBool b => Some (if b then "true" else "false")
  | VNum n => Some (number_to_string n)
  | VStr s => Some (quote s)
  | VArr l =>
      Some ("[" ++ join ","
              (map (fun x => match JSON_stringify x with
                             | Some s => s
                             | None => "null"
                             end) l) ++ "]")
  | VObj fs =>
      Some ("{" ++ join ","
              (flat_map (fun kv => match kv with
                                   | (k, x) =>
                                       match JSON_stringify x with
                                       | Some s => [quote k ++ ":" ++ s]
                                       | None => []
                                       end
                                   end) fs) ++ "}")
  end.

(** [Array.prototype.sort()] on an array of keys: ascending in the order
    of the strings' code units. *)
Fixpoint insert_key (k : string) (l : list string) : list string :=
  match l with
  | [] => [k]
  | x :: r => if String.leb k x then k :: l else x :: insert_key k r
  end.

Fixpoint sort_keys (l : list string) : list string :=
  match l with
  | [] => []
  | k :: r => insert_key k (sort_keys r)
  end.

Fixpoint rendered (k : string) (l : list (string * option string))
  : option string :=
  match l with
  | [] => None
  | (k', s) :: r => if String.eqb k k' then s else rendered k r
  end.

(** [stringify(v)] of json-stable-stringify, called with no options: as
    the built-in one, but an object's keys are sorted first and
    [node[key]] is serialized for each key in that order. *)
Fixpoint stable_stringify (v : value) : option string :=
  match v with
  | VUndef => None
  | VNull => Some "null"
  | VBool b => Some (if b then "true" else "false")
  | VNum n => Some (number_to_string n)
  | VStr s => Some (quote s)
  | VArr l =>
      Some ("[" ++ join ","
              (map (fun x => match stable_stringify x with
                             | Some s => s
                             | None => "null"
                             end) l) ++ "]")
  | VObj fs =>
      let values :=
        map (fun kv => match kv with
                       | (k, x) => (k, stable_stringify x)
                       end) fs in
      Some ("{" ++ join ","
              (flat_map (fun k => match rendered k values with
                                  | Some s => [quote k ++ ":" ++ s]
                                  | None => []
                                  end) (sort_keys (map fst fs))) ++ "}")
  end.

(** ** lodash.merge

    [merge(object, source)] for the shapes [value] holds.  Arrays and
    objects of the source are merged into the destination recursively,
    arrays index by index; any other source value replaces the
    destination's, except that [undefined] never replaces a value that is
    there.  An array destination is kept, an array-like object is copied
    to an array, and anything else under an array source starts from the
    empty array. *)

Definition array_like (fs : obj) : option (list value) :=
  match lookup "length" fs with
  | Some (VNum n) =>
      if (0 <=? n) && (n mod 1000 =? 0)
      then Some (map (fun i => match lookup (digits (Z.of_nat i)) fs with
                               | Some x => x
                               | None => VUndef
                               end)
                   (seq 0 (Z.to_nat (n / 1000))))
      else None
  | _ => None
  end.

Fixpoint merge_value (dst src : value) {struct src} : value :=
  match src with
  | VArr sl =>
      let base := match dst with
                  | VArr dl => dl
                  | VObj fs => match array_like fs with
                               | Some l => l
                               | None => []
                               end
                  | _ => []
                  end in
      VArr ((fix items (sl dl : list value) {struct sl} : list value :=
               match sl with
               | [] => dl
               | sv :: sr =>
                   let dv := hd VUndef dl in
                   (match sv with
                    | VArr _ | VObj _ => merge_value dv sv
                    | VUndef => dv
                    | _ => sv
                    end) :: items sr (tl dl)
               end) sl base)
  | VObj sfs =>
      match dst with
      | VArr _ => dst
      | _ =>
          let base := match dst with VObj dfs => dfs | _ => [] end in
          VObj ((fix fields (sfs : obj) (acc : obj) {struct sfs} : obj :=
                   match sfs with
                   | [] => acc
                   | (k, sv) :: sr =>
                       let dv := match lookup k acc with
                                 | Some x => x
                                 | None => VUndef
                                 end in
                       fields sr
                         (match sv with
                          | VArr _ | VObj _ => set_field k (merge_value dv sv) acc
                          | VUndef => if has_key k acc then acc
                                      else set_field k VUndef acc
                          | _ => set_field k sv acc
                          end)
                   end) sfs base)
      end
  | _ => src
  end.

Definition merge (object source : obj) : obj :=
  match merge_value (VObj object) (VObj source) with
  | VObj fs => fs
  | _ => object
  end.

(** ** Collaborators *)

(** An ECDSA key object of jsrsasign, as [jwt.js] sets it up. *)
Record ECDSA : Type := {
  curve : string;
  prvKeyHex : value;
  pubKeyHex : value;
  isPrivate : bool;
  isPublic : bool
}.

(** The primitives of the packages the program calls.  A compact token
    is built from, and split back into, the header text, the claims text
    and the signature. *)
Class Library : Type := {
  ecdsa_sign : ECDSA -> string -> string -> result string;
  ecdsa_verify : string -> ECDSA -> string -> string -> string -> result bool;
  compact : string -> string -> string -> string;
  compact_split : value -> option (string * string * string);
  JSON_parse : string -> option value;
  HmacSHA256 : option string -> value -> string;
  Base64_stringify : string -> string;
  timestamp_add : number -> string -> number;
  decrypt : value -> value -> result value
}.

Record response : Type := { status : Z; data : value }.

Record request : Type := {
  verb : string;
  path : string;
  headers : obj;
  queryParams : obj;
  body : value
}.

(** What one run reads from its surroundings: [timestamp.now()],
    [uuidV4()], the verifier's clock in whole seconds, and the reply of
    [apiGatewayClient.makeRequest(request, authType, additionalParams)]. *)
Record world : Type := {
  timestamp_now : number;
  uuidV4 : string;
  IntDate_getNow : Z;
  makeRequest : request -> string -> obj -> result response
}.

Definition rbind {A B : Type} (r : result A) (k : A -> result B) : result B :=
  match r with
  | Ok a => k a
  | Throw e => Throw e
  end.

Notation "'let*' x ':=' r 'in' k" := (rbind r (fun x => k))
  (at level 10, x name, r at level 200, k at level 200).

Definition field (v : value) (k : string) : value :=
  match v with
  | VObj fs => match lookup k fs with Some x => x | None => VUndef end
  | _ => VUndef
  end.

Definition str_in (s : string) (l : list value) : bool :=
  existsb (fun v => match v with VStr t => String.eqb s t | _ => false end) l.

Section Jsrsasign.
Context {L : Library}.

(** [readSafeJSONString] of jsrsasign: the object a text is the JSON of,
    null for any other text. *)
Definition readSafeJSONString (s : string) : value :=
  match JSON_parse s with
  | Some (VObj fs) => VObj fs
  | _ => VNull
  end.

(** Modelled from the spec: [rs.jws.JWS.sign] of jsrsasign, which is not
    part of the repository (section 4.2): a signature over the encoded
    header and claims with the supplied private key, returned in the
    compact three-part token; an invalid key fails. *)
Definition JWS_sign (sHeader sPayload : option string) (key : ECDSA)
  : result string :=
  match sHeader, sPayload with
  | Some h, Some p =>
      let* sig := ecdsa_sign key h p in
      Ok (compact h p sig)
  | _, _ => Throw (JsTypeError "header and payload shall be strings")
  end.

(** Modelled from the spec: [rs.jws.JWS.verifyJWT] of jsrsasign, which is
    not part of the repository (section 4.3): the token is parsed into
    header, claims and signature, an algorithm outside the accepted ones
    is rejected, the signature is checked against the public key, and
    the time window [iat - grace <= now <= exp + grace] is checked, the
    grace period being 0 when the caller gives none.  The accepted
    algorithms are the [alg] list of the options the caller passes, and
    a token whose header or claims are not JSON objects is not valid.
    The library's further checks (a not-before claim, issuer, subject
    and audience lists in the options) are left out, and where the
    library throws on a text that is no token this model answers false:
    the properties below use it for what it accepts and for the
    algorithm it refuses, and never for an exact account of the
    library. *)
Definition JWS_verifyJWT (w : world) (sJWT : value) (key : ECDSA)
  (acceptField : obj) : result bool :=
  match compact_split sJWT with
  | None => Ok false
  | Some (sHeader, sPayload, sig) =>
      match readSafeJSONString sHeader, readSafeJSONString sPayload with
      | VObj pHeader, VObj pPayload =>
          match lookup "alg" pHeader, lookup "alg" acceptField with
          | Some (VStr alg), Some (VArr accepted) =>
              if negb (str_in alg accepted) then Ok false
              else
                let* valid := ecdsa_verify alg key sHeader sPayload sig in
                let now := int (IntDate_getNow w) in
                let grace := match lookup "gracePeriod" acceptField with
                             | Some (VNum g) => g
                             | _ => 0
                             end in
                if negb valid then Ok false
                else if match lookup "exp" pPayload with
                        | Some (VNum exp) => exp + grace <? now
                        | _ => false
                        end then Ok false
                else if match lookup "iat" pPayload with
                        | Some (VNum iat) => now <? iat - grace
                        | _ => false
                        end then Ok false
                else Ok true
          | Some (VStr _), _ =>
              Throw (JsThrown (VStr "acceptField.alg shall be specified"))
          | _, _ => Ok false
          end
      | _, _ => Ok false
      end
  end.

(** [rs.jws.JWS.parse] of jsrsasign: the parts of a compact token, with
    the header and the claims read as JSON objects.  Of the object the
    library returns only the fields [headerObj] and [payloadObj] are
    modelled, the ones the program reads; the printed forms and the
    signature it also holds are left out, so the properties below read
    the result field by field. *)
Definition JWS_parse (sJWS : value) : result value :=
  match compact_split sJWS with
  | None => Throw (JsThrown (VStr "malformed sJWS"))
  | Some (sHeader, sPayload, _) =>
      Ok (VObj [("headerObj", readSafeJSONString sHeader);
                ("payloadObj", readSafeJSONString sPayload)])
  end.

(** The data claim of a compact token. *)
Definition data_claim (token : value) : value :=
  match compact_split token with
  | Some (_, sPayload, _) => field (readSafeJSONString sPayload) "data"
  | None => VUndef
  end.

End Jsrsasign.

(** ** src/lib/jwt.js *)

Definition ALGO : string := "ES256".
Definition CURVE : string := "secp256r1".

Section Jwt.
Context {L : Library}.

(** [exports.createToken]: the clock and the identifier are read from
    the world. *)
Definition createToken (w : world) (issuer audience subject : value)
  (expiresIn : string) (payload : value) (prvKeyHex : value) : result string :=
  let now := timestamp_now w in
  let until := timestamp_add now expiresIn in
  let content := VObj [("jti", VStr (uuidV4 w));
                       ("iat", VNum now);
                       ("exp", VNum until);
                       ("iss", issuer);
                       ("aud", audience);
                       ("sub", subject);
                       ("data", payload)] in
  let header := VObj [("alg", VStr ALGO); ("typ", VStr "JWT")] in
  let sHeader := JSON_stringify header in
  let sContent := JSON_stringify content in
  let prvKey := {| curve := CURVE; prvKeyHex := prvKeyHex; pubKeyHex := VUndef;
                   isPrivate := true; isPublic := false |} in
  let token := JWS_sign sHeader sContent prvKey in
  token.

(** The options [verify] hands to the library. *)
Definition verify_options (acceptable : option obj) : obj :=
  merge (match acceptable with Some a => a | None => [] end)
        [("alg", VArr [VStr ALGO])].

(** [exports.verify]; [acceptable] is an options object or is left out. *)
Definition verify (w : world) (token : value) (pubhex : value)
  (acceptable : option obj) : result bool :=
  let options := verify_options acceptable in
  let pubKey := {| curve := CURVE; prvKeyHex := VUndef; pubKeyHex := pubhex;
                   isPrivate := false; isPublic := true |} in
  JWS_verifyJWT w token pubKey options.

(** [exports.decode]. *)
Definition decode (token : value) : result value :=
  JWS_parse token.

(** [exports.createCivicExt]. *)
Definition createCivicExt (body : value) (clientAccessSecret : value) : string :=
  let bodyStr := stable_stringify body in
  let hmacBuffer := HmacSHA256 bodyStr clientAccessSecret in
  Base64_stringify hmacBuffer.

End Jwt.

(** ** src/index.js *)

(** The calls of the client whose order matters, in the order made. *)
Inductive event : Type :=
| EvRequest (req : request) (authType : string) (additionalParams : obj)
| EvVerify (token pubhex : value) (acceptable : option obj) (isValid : result bool)
| EvDecode (token : value)
| EvDecrypt (ciphertext secret : value).

(** A computation of the client: the calls it made and how it ended. *)
Definition M (A : Type) : Type := (list event * result A)%type.

Definition ret {A : Type} (a : A) : M A := ([], Ok a).

Definition throw {A : Type} (e : thrown) : M A := ([], Throw e).

Definition lift {A : Type} (r : result A) : M A := ([], r).

Definition call {A : Type} (ev : event) (r : result A) : M A := ([ev], r).

Definition bind {A B : Type} (m : M A) (k : A -> M B) : M B :=
  match m with
  | (log, Ok a) => let (log', r) := k a in ((log ++ log')%list, r)
  | (log, Throw e) => (log, Throw e)
  end.

(** [try { m } catch (error) { handler }]. *)
Definition try_catch {A : Type} (m : M A) (handler : thrown -> M A) : M A :=
  match m with
  | (log, Ok a) => (log, Ok a)
  | (log, Throw e) => let (log', r) := handler e in ((log ++ log')%list, r)
  end.

Notation "x <- m ;; k" := (bind m (fun x => k))
  (at level 61, m at next level, right associativity).

Definition JWT_EXPIRATION : string := "3m".

(** What the closures of [newClient] capture. *)
Record client : Type := {
  config : value;
  base_url : string;
  hexpub : string;
  endpoint : string;
  pathComponent : string;
  authType : string
}.

Definition SIPHostedService_base_url : string := "https://api.civic.com/sip/".

Definition SIPHostedService_hexpub : string :=
  "049a45998638cfb3c4b211d72030d9ae8329a242db63bfb0076a54e7647370a8ac5708b57af6065805d5a6be72332620932dbb35e8d318fce18e7c980a0eb26aa1".

(** [config.key = v]; only objects reach an assignment. *)
Definition set_prop (v : value) (k : string) (x : value) : value :=
  match v with
  | VObj fs => VObj (set_field k x fs)
  | _ => v
  end.

Fixpoint strip_prefix (p s : string) : option string :=
  match p with
  | EmptyString => Some s
  | String a p' =>
      match s with
      | String b s' => if Ascii.eqb a b then strip_prefix p' s' else None
      | EmptyString => None
      end
  end.

Fixpoint span_host (s : string) : string :=
  match s with
  | EmptyString => EmptyString
  | String c r => if Ascii.eqb c "/" then EmptyString else String c (span_host r)
  end.

(** The first group of [/(^https?:\/\/[^\/]+)/g.exec(url)], [None] when
    the expression does not match. *)
Definition exec_endpoint (url : string) : option string :=
  let host scheme rest :=
    match span_host rest with
    | EmptyString => None
    | h => Some (scheme ++ h)
    end in
  match strip_prefix "https://" url with
  | Some rest => host "https://" rest
  | None =>
      match strip_prefix "http://" url with
      | Some rest => host "http://" rest
      | None => None
      end
  end.

Fixpoint substring_from (n : nat) (s : string) : string :=
  match n, s with
  | O, _ => s
  | S n', String _ r => substring_from n' r
  | S _, EmptyString => EmptyString
  end.

Fixpoint endsWith_slash (s : string) : bool :=
  match s with
  | EmptyString => false
  | String c EmptyString => Ascii.eqb c "/"
  | String _ r => endsWith_slash r
  end.

(** [a !== b]; two arrays or objects are never the same one here. *)
Definition strict_neq (a b : value) : bool :=
  match a, b with
  | VUndef, VUndef | VNull, VNull => false
  | VBool x, VBool y => negb (Bool.eqb x y)
  | VNum x, VNum y => negb (x =? y)
  | VStr x, VStr y => negb (String.eqb x y)
  | _, _ => true
  end.

(** [sipClientFactory.newClient], up to the client it returns.  The
    gateway client it builds from the endpoint and the content types is
    the transport of [world]; [config0] is the argument, [config] the
    object the checks and the defaults work on. *)
Definition newClient (config0 : value) : result client :=
  let config :=
    match config0 with
    | VUndef => VObj [("appId", VStr "");
                      ("appSecret", VStr "");
                      ("prvKey", VStr "");
                      ("env", VStr "prod");
                      ("defaultContentType", VStr "application/json");
                      ("defaultAcceptType", VStr "application/json")]
    | _ => config0
    end in
  let* appId := prop config "appId" in
  if negb (truthy appId)
  then Throw (Error_new (VStr "Please supply your application ID."))
  else
  let* appSecret := prop config "appSecret" in
  if negb (truthy appSecret)
  then Throw (Error_new (VStr "Please supply your application secret."))
  else
  let* prvKey := prop config "prvKey" in
  if negb (truthy prvKey)
  then Throw (Error_new (VStr "Please supply your application private key."))
  else
  let* env := prop config "env" in
  let config := if negb (truthy env) then set_prop config "env" (VStr "prod")
                else config in
  let* api := prop config "api" in
  let* base_url :=
    if truthy api
    then match api with
         | VStr a => Ok (if negb (endsWith_slash a) then a ++ "/" else a)
         | _ => Throw (JsTypeError "config.api.endsWith is not a function")
         end
    else Ok SIPHostedService_base_url in
  let config :=
    if negb (strict_neq (field config "defaultContentType") VUndef)
    then set_prop config "defaultContentType" (VStr "application/json")
    else config in
  let config :=
    if negb (strict_neq (field config "defaultAcceptType") VUndef)
    then set_prop config "defaultAcceptType" (VStr "application/json")
    else config in
  let invokeUrl := base_url ++ to_string (field config "env") in
  match exec_endpoint invokeUrl with
  | None => Throw (JsTypeError "Cannot read property '1' of null")
  | Some endpoint =>
      let pathComponent := substring_from (String.length endpoint) invokeUrl in
      let accessKey := field config "accessKey" in
      let secretKey := field config "secretKey" in
      let authType :=
        if strict_neq accessKey VUndef && strict_neq accessKey (VStr "")
           && strict_neq secretKey VUndef && strict_neq secretKey (VStr "")
        then "AWS_IAM" else "NONE" in
      Ok {| config := config;
            base_url := base_url;
            hexpub := SIPHostedService_hexpub;
            endpoint := endpoint;
            pathComponent := pathComponent;
            authType := authType |}
  end.

Section Client.
Context {L : Library}.

(** The closure [makeAuthorizationHeader] of a client. *)
Definition makeAuthorizationHeader (cl : client) (w : world)
  (targetPath targetMethod requestBody : value) : result string :=
  let* appId := prop (config cl) "appId" in
  let* prvKey := prop (config cl) "prvKey" in
  let* jwtToken :=
    createToken w appId (VStr (base_url cl)) appId JWT_EXPIRATION
      (VObj [("method", targetMethod); ("path", targetPath)]) prvKey in
  let* appSecret := prop (config cl) "appSecret" in
  let extension := createCivicExt requestBody appSecret in
  Ok ("Civic" ++ " " ++ jwtToken ++ "." ++ extension).

(** The options [verifyAndDecrypt] passes to [verify]. *)
Definition grace_options : obj := [("gracePeriod", VNum (int 60))].

(** The closure [verifyAndDecrypt] of a client; the calls of [verify],
    [decode] and [decrypt] are logged as they are made. *)
Definition verifyAndDecrypt (cl : client) (w : world) (payload : value)
  : M value :=
  token <- lift (prop payload "data") ;;
  isValid <- call (EvVerify token (VStr (hexpub cl)) (Some grace_options)
                     (verify w token (VStr (hexpub cl)) (Some grace_options)))
                  (verify w token (VStr (hexpub cl)) (Some grace_options)) ;;
  if negb isValid
  then throw (Error_new
                (VStr "JWT Token containing encrypted data could not be verified"))
  else
    decodedToken <- call (EvDecode token) (decode token) ;;
    payloadObj <- lift (prop decodedToken "payloadObj") ;;
    clearText <- lift (prop payloadObj "data") ;;
    encrypted <- lift (prop payload "encrypted") ;;
    if truthy encrypted
    then
      payloadObj' <- lift (prop decodedToken "payloadObj") ;;
      ciphertext <- lift (prop payloadObj' "data") ;;
      appSecret <- lift (prop (config cl) "appSecret") ;;
      call (EvDecrypt ciphertext appSecret) (decrypt ciphertext appSecret)
    else ret clearText.

(** [error.data] in the handler: an [Error] or [TypeError] object has no
    such property. *)
Definition error_data (error : thrown) : result value :=
  match error with
  | JsThrown v => prop v "data"
  | JsError _ | JsTypeError _ => Ok VUndef
  end.

(** How the [try] statement of [exchangeCode] ends: by [return], or past
    its end with [errorObj] set or still undefined. *)
Inductive completion : Type :=
| Returned (v : value)
| Fallthrough (errorObj : option thrown).

(** The closure [exchangeCode] of a client; a rejected promise is a
    throw. *)
Definition exchangeCode (cl : client) (w : world) (jwtToken : value)
  : M value :=
  let body := VObj [("authToken", jwtToken)] in
  authHeader <- lift (makeAuthorizationHeader cl w
                        (VStr "scopeRequest/authCode") (VStr "POST") body) ;;
  let contentLength :=
    match JSON_stringify body with
    | Some s => Z.of_nat (String.length s)
    | None => 0
    end in
  let additionalParams :=
    [("headers", VObj [("Content-Length", VNum (int contentLength));
                       ("Accept", VStr "*/*");
                       ("Authorization", VStr authHeader)]);
     ("queryParams", VObj [])] in
  let scopeRequestAuthCodePostRequest :=
    {| verb := "POST";
       path := pathComponent cl ++ "/scopeRequest/authCode";
       headers := [];
       queryParams := [];
       body := body |} in
  c <- try_catch
         (response <- call (EvRequest scopeRequestAuthCodePostRequest
                              (authType cl) additionalParams)
                           (makeRequest w scopeRequestAuthCodePostRequest
                              (authType cl) additionalParams) ;;
          if negb (status response =? 200)
          then ret (Fallthrough
                      (Some (Error_new (VStr "Error exchanging code for data: "))))
          else
            v <- verifyAndDecrypt cl w (data response) ;;
            ret (Returned v))
         (fun error =>
            d <- lift (error_data error) ;;
            let left := VStr ("Error exchanging code for data: " ++ to_string d) in
            message <- (if truthy left
                        then d' <- lift (error_data error) ;;
                             lift (prop d' "message")
                        else ret left) ;;
            ret (Fallthrough (Some (Error_new message)))) ;;
  match c with
  | Returned v => ret v
  | Fallthrough (Some errorObj) => throw errorObj
  | Fallthrough None => ret VUndef
  end.

End Client.

(** ** A reference instance of the collaborators

    Small executable stand-ins, so that the program can be run on
    concrete inputs: a JSON reader for what the serializers write, tokens
    whose three parts are hex-encoded and joined by dots, a signature
    that names the key, the algorithm and the signed text, and a cipher
    that names its key. *)
Module Reference.

Definition is_digit (c : ascii) : bool :=
  let n := N_of_ascii c in ((48 <=? n) && (n <=? 57))%N.

Definition digit_val (c : ascii) : Z := Z.of_N (N_of_ascii c) - 48.

Fixpoint read_digits (s : string) (acc : Z) (count : nat) : Z * nat * string :=
  match s with
  | String c r =>
      if is_digit c then read_digits r (acc * 10 + digit_val c) (S count)
      else (acc, count, s)
  | EmptyString => (acc, count, s)
  end.

Definition read_number (s : string) : option (value * string) :=
  let (neg, s1) := match s with
                   | String "-" r => (true, r)
                   | _ => (false, s)
                   end in
  match read_digits s1 0 0 with
  | (_, O, _) => None
  | (ip, _, rest) =>
      let sign := if neg then -1 else 1 in
      match rest with
      | String "." r =>
          match read_digits r 0 0 with
          | (fp, 1%nat, rest') => Some (VNum (sign * (ip * 1000 + fp * 100)), rest')
          | (fp, 2%nat, rest') => Some (VNum (sign * (ip * 1000 + fp * 10)), rest')
          | (fp, 3%nat, rest') => Some (VNum (sign * (ip * 1000 + fp)), rest')
          | _ => None
          end
      | _ => Some (VNum (sign * (ip * 1000)), rest)
      end
  end.

Definition hex_val (c : ascii) : option N :=
  let n := N_of_ascii c in
  if ((48 <=? n) && (n <=? 57))%N then Some (n - 48)%N
  else if ((97 <=? n) && (n <=? 102))%N then Some (n - 87)%N
  else None.

(** The rest of a string literal, after its opening quote. *)
Fixpoint read_string (s : string) : option (string * string) :=
  match s with
  | EmptyString => None
  | String c r =>
      if (N_of_ascii c =? 34)%N then Some (EmptyString, r)
      else if (N_of_ascii c =? 92)%N then
        match r with
        | String "u" (String "0" (String "0" (String h (String l r')))) =>
            match hex_val h, hex_val l, read_string r' with
            | Some a, Some b, Some (t, rest) =>
                Some (String (ascii_of_N (16 * a + b)) t, rest)
            | _, _, _ => None
            end
        | String e r' =>
            let plain (n : N) :=
              match read_string r' with
              | Some (t, rest) => Some (String (ascii_of_N n) t, rest)
              | None => None
              end in
            if Ascii.eqb e "b" then plain 8%N
            else if Ascii.eqb e "f" then plain 12%N
            else if Ascii.eqb e "n" then plain 10%N
            else if Ascii.eqb e "r" then plain 13%N
            else if Ascii.eqb e "t" then plain 9%N
            else if Ascii.eqb e "/" then plain 47%N
            else if (N_of_ascii e =? 34)%N then plain 34%N
            else if (N_of_ascii e =? 92)%N then plain 92%N
            else None
        | EmptyString => None
        end
      else match read_string r with
           | Some (t, rest) => Some (String c t, rest)
           | None => None
           end
  end.

(** A field read before the fields [fs] that follow it: a later field of
    the same name gives the value. *)
Definition add_field (k : string) (v : value) (fs : obj) : obj :=
  match lookup k fs with
  | Some later =>
      (k, later) :: filter (fun kv => negb (String.eqb k (fst kv))) fs
  | None => (k, v) :: fs
  end.

Fixpoint read_value (fuel : nat) (s : string) : option (value * string) :=
  match fuel with
  | O => None
  | S fuel' =>
      match s with
      | String "n" (String "u" (String "l" (String "l" r))) => Some (VNull, r)
      | String "t" (String "r" (String "u" (String "e" r))) => Some (VBool true, r)
      | String "f" (String "a" (String "l" (String "s" (String "e" r)))) =>
          Some (VBool false, r)
      | String "[" (String "]" r) => Some (VArr [], r)
      | String "[" r =>
          match read_items fuel' r with
          | Some (l, rest) => Some (VArr l, rest)
          | None => None
          end
      | String "{" (String "}" r) => Some (VObj [], r)
      | String "{" r =>
          match read_fields fuel' r with
          | Some (fs, rest) => Some (VObj fs, rest)
          | None => None
          end
      | String c r =>
          if (N_of_ascii c =? 34)%N then
            match read_string r with
            | Some (t, rest) => Some (VStr t, rest)
            | None => None
            end
          else read_number s
      | EmptyString => None
      end
  end
with read_items (fuel : nat) (s : string) : option (list value * string) :=
  match fuel with
  | O => None
  | S fuel' =>
      match read_value fuel' s with
      | Some (v, String "," r) =>
          match read_items fuel' r with
          | Some (l, rest) => Some (v :: l, rest)
          | None => None
          end
      | Some (v, String "]" r) => Some ([v], r)
      | _ => None
      end
  end
with read_fields (fuel : nat) (s : string) : option (obj * string) :=
  match fuel with
  | O => None
  | S fuel' =>
      match s with
      | String q r =>
          if (N_of_ascii q =? 34)%N then
            match read_string r with
            | Some (k, String ":" r') =>
                match read_value fuel' r' with
                | Some (v, String "," r'') =>
                    match read_fields fuel' r'' with
                    | Some (fs, rest) => Some (add_field k v fs, rest)
                    | None => None
                    end
                | Some (v, String "}" r'') => Some ([(k, v)], r'')
                | _ => None
                end
            | _ => None
            end
          else None
      | EmptyString => None
      end
  end.

Definition parse (s : string) : option value :=
  match read_value (2 * String.length s + 2) s with
  | Some (v, EmptyString) => Some v
  | _ => None
  end.

Fixpoint hex_encode (s : string) : string :=
  match s with
  | EmptyString => EmptyString
  | String c r =>
      let n := N_of_ascii c in
      String (hex_digit (n / 16)) (String (hex_digit (n mod 16)) (hex_encode r))
  end.

Fixpoint hex_decode (s : string) : option string :=
  match s with
  | EmptyString => Some EmptyString
  | String h (String l r) =>
      match hex_val h, hex_val l, hex_decode r with
      | Some a, Some b, Some t => Some (String (ascii_of_N (16 * a + b)) t)
      | _, _, _ => None
      end
  | String _ EmptyString => None
  end.

Fixpoint split_dots (s : string) (cur : string) : list string :=
  match s with
  | EmptyString => [cur]
  | String c r =>
      if Ascii.eqb c "." then cur :: split_dots r EmptyString
      else split_dots r (cur ++ String c EmptyString)
  end.

Definition token_of (h p sig : string) : string :=
  hex_encode h ++ "." ++ hex_encode p ++ "." ++ hex_encode sig.

Definition token_split (t : value) : option (string * string * string) :=
  match t with
  | VStr s =>
      match split_dots s EmptyString with
      | [a; b; c] =>
          match hex_decode a, hex_decode b, hex_decode c with
          | Some h, Some p, Some sig => Some (h, p, sig)
          | _, _, _ => None
          end
      | _ => None
      end
  | _ => None
  end.

(** The signature of a text under an algorithm and a key; the key pairs
    of this instance are the pairs of equal keys. *)
Definition tag (alg key text : string) : string :=
  "sig(" ++ alg ++ "," ++ key ++ "," ++ text ++ ")".

Definition header_alg (h : string) : string :=
  match parse h with
  | Some hdr => match field hdr "alg" with VStr a => a | _ => "none" end
  | None => "none"
  end.

Definition sign (key : ECDSA) (h p : string) : result string :=
  match prvKeyHex key with
  | VStr k =>
      if String.eqb k "" then Throw (JsThrown (VStr "invalid private key"))
      else Ok (tag (header_alg h) k (h ++ "." ++ p))
  | _ => Throw (JsThrown (VStr "invalid private key"))
  end.

Definition check (alg : string) (key : ECDSA) (h p sig : string) : result bool :=
  match pubKeyHex key with
  | VStr k => Ok (String.eqb sig (tag alg k (h ++ "." ++ p)))
  | _ => Throw (JsThrown (VStr "invalid public key"))
  end.

Definition hmac (message : option string) (secret : value) : string :=
  "hmac(" ++ to_string secret ++ ","
    ++ match message with Some m => m | None => "" end ++ ")".

(** Durations of whole minutes or seconds, as in 3m or -1s. *)
Definition add (now : number) (delta : string) : number :=
  let (neg, s) := match delta with
                  | String "-" r => (true, r)
                  | _ => (false, delta)
                  end in
  match read_digits s 0 0 with
  | (n, _, "m") => now + (if neg then -1 else 1) * int (60 * n)
  | (n, _, "s") => now + (if neg then -1 else 1) * int n
  | _ => now
  end.

Definition decipher (ciphertext secret : value) : result value :=
  match ciphertext with
  | VStr c =>
      match strip_prefix ("aes(" ++ to_string secret ++ ")") c with
      | Some plain => Ok (VStr plain)
      | None => Throw (JsError "Malformed UTF-8 data")
      end
  | _ => Throw (JsError "Malformed UTF-8 data")
  end.

Definition lib : Library := {|
  ecdsa_sign := sign;
  ecdsa_verify := check;
  compact := token_of;
  compact_split := token_split;
  JSON_parse := parse;
  HmacSHA256 := hmac;
  Base64_stringify := hex_encode;
  timestamp_add := add;
  decrypt := decipher
|}.

End Reference.

(** ** Structural equality and key order *)

Fixpoint distinct (l : list string) : bool :=
  match l with
  | [] => true
  | k :: r => negb (existsb (String.eqb k) r) && distinct r
  end.

(** The values JavaScript can hold: no object has a key twice. *)
Fixpoint well_formed (v : value) : bool :=
  match v with
  | VArr l => forallb well_formed l
  | VObj fs =>
      distinct (map fst fs)
      && forallb (fun kv => match kv with (_, x) => well_formed x end) fs
  | _ => true
  end.

(** Deep equality: arrays element by element, objects field by field
    whatever the order their keys were inserted in. *)
Fixpoint deep_equal (a b : value) {struct a} : bool :=
  match a, b with
  | VUndef, VUndef | VNull, VNull => true
  | VBool x, VBool y => Bool.eqb x y
  | VNum x, VNum y => x =? y
  | VStr x, VStr y => String.eqb x y
  | VArr l, VArr l' =>
      (fix items (l l' : list value) {struct l} : bool :=
         match l, l' with
         | [], [] => true
         | x :: r, y :: r' => deep_equal x y && items r r'
         | _, _ => false
         end) l l'
  | VObj fs, VObj fs' =>
      Nat.eqb (List.length fs) (List.length fs')
      && forallb (fun kv => match kv with
                            | (k, x) => match lookup k fs' with
                                        | Some y => deep_equal x y
                                        | None => false
                                        end
                            end) fs
  | _, _ => false
  end.

Fixpoint ascending (l : list string) : bool :=
  match l with
  | [] => true
  | k :: r => forallb (String.ltb k) r && ascending r
  end.

(** Every object lists its keys in ascending order. *)
Fixpoint key_sorted (v : value) : bool :=
  match v with
  | VArr l => forallb key_sorted l
  | VObj fs =>
      ascending (map fst fs)
      && forallb (fun kv => match kv with (_, x) => key_sorted x end) fs
  | _ => true
  end.

(** The configuration [newClient] goes on with once the defaults of
    [env], [defaultContentType] and [defaultAcceptType] are filled in. *)
Definition with_defaults (cfg : value) : value :=
  let c1 := if negb (truthy (field cfg "env"))
            then set_prop cfg "env" (VStr "prod") else cfg in
  let c2 := if negb (strict_neq (field c1 "defaultContentType") VUndef)
            then set_prop c1 "defaultContentType" (VStr "application/json")
            else c1 in
  if negb (strict_neq (field c2 "defaultAcceptType") VUndef)
  then set_prop c2 "defaultAcceptType" (VStr "application/json")
  else c2.

Definition is_request (ev : event) : bool :=
  match ev with EvRequest _ _ _ => true | _ => false end.

Definition is_decrypt (ev : event) : bool :=
  match ev with EvDecrypt _ _ => true | _ => false end.

(** A transport that never answers 200: it answers another status or
    fails. *)
Definition transport_fails (w : world) : Prop :=
  forall req authType params,
    match makeRequest w req authType params with
    | Ok resp => status resp <> 200
    | Throw _ => True
    end.

(** ** Sample inputs *)
Module Sample.

Definition body1 : value :=
  VObj [("b", VNum (int 2)); ("a", VObj [("y", VStr "q"); ("x", VNull)])].

Definition body2 : value :=
  VObj [("a", VObj [("x", VNull); ("y", VStr "q")]); ("b", VNum (int 2))].

Definition payload1 : value := VObj [("a", VNum (int 1)); ("b", VNum (int 2))].

Definition payload2 : value := VObj [("b", VNum (int 2)); ("a", VNum (int 1))].

(** A payload with a field that holds [undefined]. *)
Definition payload_undef : value := VObj [("a", VUndef)].

(** A clock at 1000.5 s when signing and at 1001 s when verifying, and a
    transport that answers 403. *)
Definition w : world := {|
  timestamp_now := 1000500;
  uuidV4 := "id-1";
  IntDate_getNow := 1001;
  makeRequest := fun _ _ _ =>
    Ok {| status := 403; data := VObj [("message", VStr "Forbidden")] |}
|}.

Definition cfg : value :=
  VObj [("appId", VStr "app1"); ("appSecret", VStr "5ec"); ("prvKey", VStr "k1")].

(** The client [newClient cfg] returns. *)
Definition cl : client := {|
  config := VObj [("appId", VStr "app1"); ("appSecret", VStr "5ec");
                  ("prvKey", VStr "k1"); ("env", VStr "prod");
                  ("defaultContentType", VStr "application/json");
                  ("defaultAcceptType", VStr "application/json")];
  base_url := SIPHostedService_base_url;
  hexpub := SIPHostedService_hexpub;
  endpoint := "https://api.civic.com";
  pathComponent := "/sip/prod";
  authType := "NONE"
|}.

(** An assertion of the hosted service under the reference instance,
    whose key pairs are the pairs of equal keys. *)
Definition service_token (claim : value) : value :=
  match createToken (L := Reference.lib) w (VStr "civic-sip-hosted-service")
          (VStr SIPHostedService_base_url) (VStr "app1") "3m" claim
          (VStr SIPHostedService_hexpub) with
  | Ok t => VStr t
  | Throw _ => VUndef
  end.

Definition envelope (encrypted : bool) : value :=
  VObj [("data", service_token (if encrypted then VStr "aes(5ec)42"
                                else VObj [("name", VStr "Alice")]));
        ("encrypted", VBool encrypted)].

(** A transport that fails with an error that has no [data] field. *)
Definition w_down : world := {|
  timestamp_now := 1000500;
  uuidV4 := "id-1";
  IntDate_getNow := 1001;
  makeRequest := fun _ _ _ =>
    Throw (JsThrown (VObj [("message", VStr "socket hang up")]))
|}.

(** The verifier's clock after the expiry of a token signed at [w], and
    in the same second as the signature. *)
Definition w_late : world := {|
  timestamp_now := 1000500;
  uuidV4 := "id-1";
  IntDate_getNow := 1181;
  makeRequest := makeRequest w
|}.

Definition w_same_second : world := {|
  timestamp_now := 1000500;
  uuidV4 := "id-1";
  IntDate_getNow := 1000;
  makeRequest := makeRequest w
|}.

(** A token whose header names ES384, signed with the key k1. *)
Definition token_es384 : value :=
  match JWS_sign (L := Reference.lib)
          (JSON_stringify (VObj [("alg", VStr "ES384"); ("typ", VStr "JWT")]))
          (JSON_stringify (VObj [("iat", VNum (int 1000));
                                 ("exp", VNum (int 1180));
                                 ("data", VObj [("name", VStr "Alice")])]))
          {| curve := CURVE; prvKeyHex := VStr "k1"; pubKeyHex := VUndef;
             isPrivate := true; isPublic := false |} with
  | Ok t => VStr t
  | Throw _ => VUndef
  end.

Definition accept_two : obj := [("alg", VArr [VStr "ES256"; VStr "ES384"])].

End Sample.

(** ** Transports and further sample inputs *)

(** A transport that answers every request with [resp]. *)
Definition transport_answers (w : world) (resp : response) : Prop :=
  forall req authType params, makeRequest w req authType params = Ok resp.

(** A transport that rejects every request with the value [v]. *)
Definition transport_rejects (w : world) (v : value) : Prop :=
  forall req authType params,
    makeRequest w req authType params = Throw (JsThrown v).

Definition is_slash (c : ascii) : bool := Ascii.eqb c "/".

Fixpoint has_slash (s : string) : bool :=
  match s with
  | EmptyString => false
  | String c r => is_slash c || has_slash r
  end.

Module Scenario.

(** The service answers 200 with a cleartext envelope. *)
Definition reply_ok : response :=
  {| status := 200; data := Sample.envelope false |}.

Definition w_ok : world := {|
  timestamp_now := 1000500;
  uuidV4 := "id-1";
  IntDate_getNow := 1001;
  makeRequest := fun _ _ _ => Ok reply_ok
|}.

(** An assertion signed with a key that is not the service's. *)
Definition forged_token : value :=
  match createToken (L := Reference.lib) Sample.w (VStr "mallory")
          (VStr SIPHostedService_base_url) (VStr "app1") "3m"
          (VObj [("name", VStr "Alice")]) (VStr "k2") with
  | Ok t => VStr t
  | Throw _ => VUndef
  end.

Definition reply_forged : response :=
  {| status := 200;
     data := VObj [("data", forged_token); ("encrypted", VBool false)] |}.

Definition w_forged : world := {|
  timestamp_now := 1000500;
  uuidV4 := "id-1";
  IntDate_getNow := 1001;
  makeRequest := fun _ _ _ => Ok reply_forged
|}.

(** The rejection of a reply with status 403 and a message in its body. *)
Definition refusal : value :=
  VObj [("status", VNum (int 403));
        ("data", VObj [("message", VStr "Forbidden")])].

Definition w_refused : world := {|
  timestamp_now := 1000500;
  uuidV4 := "id-1";
  IntDate_getNow := 1001;
  makeRequest := fun _ _ _ => Throw (JsThrown refusal)
|}.

Definition cfg_local : value :=
  VObj [("appId", VStr "app1"); ("appSecret", VStr "5ec"); ("prvKey", VStr "k1");
        ("api", VStr "http://localhost:3000"); ("env", VStr "dev")].

Definition cfg_no_scheme : value :=
  VObj [("appId", VStr "app1"); ("appSecret", VStr "5ec"); ("prvKey", VStr "k1");
        ("api", VStr "localhost:3000")].

(** An envelope whose flag is the string false. *)
Definition envelope_flag : value :=
  VObj [("data", Sample.service_token (VStr "aes(5ec)42"));
        ("encrypted", VStr "false")].

(** An envelope whose token names the algorithm ES384. *)
Definition envelope_es384 : value :=
  VObj [("data", Sample.token_es384); ("encrypted", VBool false)].

End Scenario.

(** Splits a log of known length at every place a given event could
    stand, and drops the places where another event stands. *)
Ltac scan_log pre :=
  repeat (destruct pre as [|? pre]; try discriminate).

(** Closes a goal on the log of a run that made one request. *)
Ltac one_request :=
  split; [reflexivity|];
  split; cbn; rewrite ?app_nil_r; first [reflexivity | assumption].

(** * Properties *)

(** ** The order of keys *)

Lemma ascii_compare_N (a b : ascii) :
  Ascii.compare a b = N.compare (N_of_ascii a) (N_of_ascii b).
Proof. reflexivity. Qed.

Lemma string_compare_trans_le (a b c : string) :
  String.compare a b <> Gt -> String.compare b c <> Gt ->
  String.compare a c <> Gt.
Proof.
  revert b c. induction a as [|x a IH]; intros [|y b] [|z c]; simpl;
    try congruence.
  rewrite !ascii_compare_N.
  destruct (N.compare_spec (N_of_ascii x) (N_of_ascii y));
    destruct (N.compare_spec (N_of_ascii y) (N_of_ascii z));
    destruct (N.compare_spec (N_of_ascii x) (N_of_ascii z));
    try congruence; try lia; intros; eauto.
Qed.

Lemma leb_trans (a b c : string) :
  String.leb a b = true -> String.leb b c = true -> String.leb a c = true.
Proof.
  unfold String.leb. intros Hab Hbc.
  pose proof (string_compare_trans_le a b c) as H.
  destruct (String.compare a b); destruct (String.compare b c);
    destruct (String.compare a c); try congruence;
    exfalso; apply H; congruence.
Qed.

Lemma leb_false_le (a b : string) :
  String.leb a b = false -> String.leb b a = true.
Proof.
  intros H. destruct (String.leb_total a b) as [H'|H']; congruence.
Qed.

Lemma insert_key_comm (a b : string) (l : list string) :
  insert_key a (insert_key b l) = insert_key b (insert_key a l).
Proof.
  induction l as [|x l IH]; cbn [insert_key].
  - destruct (String.leb a b) eqn:Hab, (String.leb b a) eqn:Hba; try reflexivity.
    + rewrite (String.leb_antisym _ _ Hab Hba). reflexivity.
    + apply leb_false_le in Hab. congruence.
  - destruct (String.leb b x) eqn:Hbx, (String.leb a x) eqn:Hax;
      cbn [insert_key]; rewrite ?Hbx, ?Hax.
    + destruct (String.leb a b) eqn:Hab, (String.leb b a) eqn:Hba;
        try reflexivity.
      * rewrite (String.leb_antisym _ _ Hab Hba). reflexivity.
      * apply leb_false_le in Hab. congruence.
    + destruct (String.leb a b) eqn:Hab.
      * rewrite (leb_trans _ _ _ Hab Hbx) in Hax. discriminate.
      * reflexivity.
    + destruct (String.leb b a) eqn:Hba.
      * rewrite (leb_trans _ _ _ Hba Hax) in Hbx. discriminate.
      * reflexivity.
    + rewrite IH. reflexivity.
Qed.

Lemma sort_keys_perm (l l' : list string) :
  Permutation l l' -> sort_keys l = sort_keys l'.
Proof.
  induction 1; simpl; try congruence.
  apply insert_key_comm.
Qed.

Lemma lookup_In (k : string) (fs : obj) (v : value) :
  lookup k fs = Some v -> In (k, v) fs.
Proof.
  induction fs as [|[k' x] fs IH]; simpl; [discriminate|].
  destruct (String.eqb_spec k k') as [->|_]; intros H.
  - inversion H. now left.
  - right. auto.
Qed.

Lemma In_lookup_some (k : string) (fs : obj) :
  In k (map fst fs) -> exists v, lookup k fs = Some v.
Proof.
  induction fs as [|[k' x] fs IH]; simpl; [tauto|].
  destruct (String.eqb_spec k k') as [->|Hne]; intros H; eauto.
  destruct H as [H|H]; [congruence|auto].
Qed.

Lemma distinct_NoDup (l : list string) : distinct l = true -> NoDup l.
Proof.
  induction l as [|k l IH]; simpl; intros H; constructor.
  - apply andb_true_iff in H as [H _]. intros Hin.
    apply negb_true_iff in H.
    assert (existsb (String.eqb k) l = true) as E; [|congruence].
    apply existsb_exists. exists k. split; [assumption|apply String.eqb_refl].
  - apply andb_true_iff in H as [_ H]. auto.
Qed.

Lemma In_insert_key (k x : string) (l : list string) :
  In k (insert_key x l) -> k = x \/ In k l.
Proof.
  induction l as [|y l IH]; simpl.
  - intros [H|[]]; auto.
  - destruct (String.leb x y); simpl; intros H.
    + destruct H as [H|H]; auto.
    + destruct H as [H|H]; auto. destruct (IH H); auto.
Qed.

Lemma In_sort_keys (k : string) (l : list string) :
  In k (sort_keys l) -> In k l.
Proof.
  induction l as [|x l IH]; simpl; [tauto|].
  intros H. destruct (In_insert_key _ _ _ H); auto.
Qed.

Lemma flat_map_agree {A B : Type} (f g : A -> list B) (l : list A) :
  (forall a, In a l -> f a = g a) -> flat_map f l = flat_map g l.
Proof.
  induction l as [|a l IH]; simpl; intros H; [reflexivity|].
  rewrite (H a), IH; auto.
Qed.

Lemma rendered_map (f : value -> option string) (k : string) (fs : obj) :
  rendered k (map (fun kv => match kv with (k', x) => (k', f x) end) fs)
  = match lookup k fs with Some x => f x | None => None end.
Proof.
  induction fs as [|[k' x] fs IH]; simpl; [reflexivity|].
  destruct (String.eqb k k'); auto.
Qed.

Lemma deep_equal_keys (fs fs' : obj) :
  distinct (map fst fs) = true ->
  List.length fs = List.length fs' ->
  (forall k x, In (k, x) fs -> exists y, lookup k fs' = Some y) ->
  Permutation (map fst fs) (map fst fs').
Proof.
  intros Hd Hlen Hall.
  apply NoDup_Permutation_bis.
  - now apply distinct_NoDup.
  - rewrite !length_map. lia.
  - intros k Hin. apply in_map_iff in Hin as [[k' x] [<- Hin]].
    destruct (Hall _ _ Hin) as [y Hy]. apply lookup_In in Hy.
    apply in_map_iff. exists (k', y). auto.
Qed.

(** The stable serializer does not see the order of an object's keys. *)
Lemma stable_stringify_deep_equal (a : value) :
  forall b, well_formed a = true -> deep_equal a b = true ->
            stable_stringify a = stable_stringify b.
Proof.
  induction a as [| |x|x|x|l IH|fs IH] using value_ind; intros b Hwf Heq;
    destruct b; simpl in Heq; try discriminate; try reflexivity.
  - apply Bool.eqb_prop in Heq. now subst.
  - apply Z.eqb_eq in Heq. now subst.
  - apply String.eqb_eq in Heq. now subst.
  - simpl in Hwf. cbn [stable_stringify].
    match goal with
    | |- Some (_ ++ join _ (map ?f l) ++ _) = _ =>
        enough (map f l = map f items) as -> by reflexivity
    end.
    revert items Heq Hwf. induction IH as [|x l Hx _ IHl]; intros [|y l'] Heq Hwf;
      simpl in *; try discriminate; [reflexivity|].
    apply andb_true_iff in Heq as [Hxy Heq].
    apply andb_true_iff in Hwf as [Hwx Hwf].
    rewrite (Hx _ Hwx Hxy). f_equal. now apply IHl.
  - simpl in Hwf. apply andb_true_iff in Hwf as [Hd Hwf].
    apply andb_true_iff in Heq as [Hlen Hall].
    apply Nat.eqb_eq in Hlen.
    rewrite forallb_forall in Hall, Hwf.
    rewrite Forall_forall in IH.
    assert (forall k x, In (k, x) fs ->
              exists y, lookup k fields = Some y /\ deep_equal x y = true) as Hf.
    { intros k x Hin. specialize (Hall _ Hin). simpl in Hall.
      destruct (lookup k fields) as [y|]; [eauto|discriminate]. }
    cbn [stable_stringify]. do 3 f_equal. f_equal.
    rewrite <- (sort_keys_perm (map fst fs) (map fst fields)).
    2:{ apply deep_equal_keys; auto. intros k x Hin.
        destruct (Hf _ _ Hin) as [y [Hy _]]. eauto. }
    apply flat_map_agree. intros k Hin.
    apply In_sort_keys in Hin.
    rewrite !rendered_map.
    destruct (In_lookup_some _ _ Hin) as [x Hx]. rewrite Hx.
    apply lookup_In in Hx.
    destruct (Hf _ _ Hx) as [y [Hy Hxy]]. rewrite Hy.
    pose proof (IH (k, x) Hx y (Hwf (k, x) Hx) Hxy) as E. simpl in E.
    now rewrite E.
Qed.

Lemma ltb_leb (a b : string) : String.ltb a b = true -> String.leb a b = true.
Proof.
  unfold String.ltb, String.leb. destruct (String.compare a b); congruence.
Qed.

Lemma ltb_irrefl (a : string) : String.ltb a a = false.
Proof.
  unfold String.ltb.
  assert (String.compare a a = Eq) as ->; [|reflexivity].
  induction a as [|c a IH]; simpl; [reflexivity|].
  rewrite ascii_compare_N, N.compare_refl. exact IH.
Qed.

Lemma sort_keys_ascending (l : list string) :
  ascending l = true -> sort_keys l = l.
Proof.
  induction l as [|k l IH]; simpl; [reflexivity|].
  intros H. apply andb_true_iff in H as [Hk Hl].
  rewrite (IH Hl). destruct l as [|x l]; [reflexivity|].
  simpl in Hk. apply andb_true_iff in Hk as [Hk _].
  simpl. now rewrite (ltb_leb _ _ Hk).
Qed.

Lemma ascending_NoDup (l : list string) : ascending l = true -> NoDup l.
Proof.
  induction l as [|k l IH]; simpl; intros H; constructor;
    apply andb_true_iff in H as [Hk Hl]; auto.
  intros Hin. rewrite forallb_forall in Hk.
  specialize (Hk _ Hin). rewrite ltb_irrefl in Hk. discriminate.
Qed.

Lemma In_lookup (k : string) (x : value) (fs : obj) :
  NoDup (map fst fs) -> In (k, x) fs -> lookup k fs = Some x.
Proof.
  induction fs as [|[k' y] fs IH]; simpl; [tauto|].
  intros Hnd [H|H].
  - inversion H; subst. now rewrite String.eqb_refl.
  - inversion Hnd as [|? ? Hnotin Hnd']; subst.
    destruct (String.eqb_spec k k') as [->|_]; [|auto].
    exfalso. apply Hnotin. apply in_map_iff. exists (k', x). auto.
Qed.

Lemma flat_map_keys {B : Type} (f : string -> list B) (fs : obj) :
  flat_map f (map fst fs) = flat_map (fun kv => f (fst kv)) fs.
Proof.
  induction fs as [|kv fs IH]; simpl; congruence.
Qed.

(** On values whose objects list their keys in ascending order the two
    serializers write the same text. *)
Lemma JSON_stringify_key_sorted (v : value) :
  key_sorted v = true -> JSON_stringify v = stable_stringify v.
Proof.
  induction v as [| |x|x|x|l IH|fs IH] using value_ind; intros Hs;
    try reflexivity.
  - simpl in Hs. cbn [JSON_stringify stable_stringify].
    match goal with
    | |- Some (_ ++ join _ (map ?f l) ++ _) = Some (_ ++ join _ (map ?g l) ++ _) =>
        enough (map f l = map g l) as -> by reflexivity
    end.
    apply map_ext_in. intros x Hin.
    rewrite Forall_forall in IH. rewrite forallb_forall in Hs.
    now rewrite (IH _ Hin (Hs _ Hin)).
  - simpl in Hs. apply andb_true_iff in Hs as [Ha Hs].
    cbn [JSON_stringify stable_stringify].
    rewrite (sort_keys_ascending _ Ha), flat_map_keys.
    do 3 f_equal. f_equal.
    apply flat_map_agree. intros [k x] Hin. simpl.
    rewrite rendered_map.
    rewrite (In_lookup k x fs (ascending_NoDup _ Ha) Hin).
    rewrite Forall_forall in IH. rewrite forallb_forall in Hs.
    pose proof (IH _ Hin (Hs _ Hin)) as E. simpl in E. now rewrite E.
Qed.

(** ** Serialization in the signer and in the extension generator *)

(** C9: the extension generator is a function of the body and the
    secret, and structurally equal bodies, whatever the insertion order
    of their keys, get the identical base64 HMAC tag. *)
Theorem createCivicExt_deterministic {L : Library} (body body' secret : value) :
  well_formed body = true -> deep_equal body body' = true ->
  createCivicExt body secret = createCivicExt body' secret.
Proof.
  intros Hwf Heq. unfold createCivicExt.
  now rewrite (stable_stringify_deep_equal body body' Hwf Heq).
Qed.

Lemma createCivicExt_deterministic_witness :
  createCivicExt (L := Reference.lib) Sample.body1 (VStr "5ec")
  = createCivicExt (L := Reference.lib) Sample.body2 (VStr "5ec").
Proof.
  apply (createCivicExt_deterministic (L := Reference.lib)
           Sample.body1 Sample.body2 (VStr "5ec")); reflexivity.
Defined.

Lemma JSON_stringify_deep_equal_sorted (a b : value) :
  well_formed a = true -> deep_equal a b = true ->
  key_sorted a = true -> key_sorted b = true ->
  JSON_stringify a = JSON_stringify b.
Proof.
  intros Hwf Heq Ha Hb.
  rewrite (JSON_stringify_key_sorted a Ha), (JSON_stringify_key_sorted b Hb).
  now apply stable_stringify_deep_equal.
Qed.

(** C3, as the code has it: the extension generator serializes the
    request body with the key-order-stable serializer, so structurally
    equal bodies give it identical bytes, and identical tags, whatever
    the order of their keys.  The signer serializes the claims with the
    built-in serializer, which writes the keys of an object in the
    object's own order and does not sort them: for a payload whose
    objects list their keys in ascending order that text is the stable
    text of every structurally equal payload, and the token of
    [createToken] depends on the payload through that text only, so
    that every value with that JSON text gets the same token. *)
Theorem serialization_per_operation {L : Library} (w : world)
  (body body' secret issuer audience subject payload payload' prvKeyHex : value)
  (expiresIn : string) :
  well_formed body = true -> deep_equal body body' = true ->
  well_formed payload = true -> deep_equal payload payload' = true ->
  key_sorted payload = true ->
  stable_stringify body = stable_stringify body'
  /\ createCivicExt body secret = createCivicExt body' secret
  /\ JSON_stringify payload = stable_stringify payload'
  /\ (forall other,
        JSON_stringify other = stable_stringify payload' ->
        createToken w issuer audience subject expiresIn payload prvKeyHex
        = createToken w issuer audience subject expiresIn other prvKeyHex).
Proof.
  intros Hwb Hb Hwp Hp Hs.
  pose proof (stable_stringify_deep_equal _ _ Hwb Hb) as Eb.
  assert (JSON_stringify payload = stable_stringify payload') as Ep.
  { rewrite (JSON_stringify_key_sorted _ Hs).
    now apply stable_stringify_deep_equal. }
  repeat split; auto.
  - unfold createCivicExt. now rewrite Eb.
  - intros other Ho. rewrite <- Ep in Ho.
    unfold createToken. cbn [JSON_stringify flat_map app]. now rewrite Ho.
Qed.

(** The payload with its keys in ascending order, the same payload with
    its keys in the other order, and a third value, with one more field
    that holds [undefined], whose JSON text is the same. *)
Lemma serialization_per_operation_witness :
  stable_stringify Sample.body1 = stable_stringify Sample.body2
  /\ createCivicExt (L := Reference.lib) Sample.body1 (VStr "5ec")
     = createCivicExt (L := Reference.lib) Sample.body2 (VStr "5ec")
  /\ JSON_stringify Sample.payload1 = stable_stringify Sample.payload2
  /\ createToken (L := Reference.lib) Sample.w (VStr "app1") (VStr "aud")
       (VStr "app1") "3m" Sample.payload1 (VStr "k1")
     = createToken (L := Reference.lib) Sample.w (VStr "app1") (VStr "aud")
         (VStr "app1") "3m"
         (VObj [("a", VNum (int 1)); ("b", VNum (int 2)); ("c", VUndef)])
         (VStr "k1").
Proof.
  destruct (serialization_per_operation (L := Reference.lib) Sample.w
              Sample.body1 Sample.body2 (VStr "5ec") (VStr "app1") (VStr "aud")
              (VStr "app1") Sample.payload1 Sample.payload2 (VStr "k1") "3m"
              eq_refl eq_refl eq_refl eq_refl eq_refl)
    as (H1 & H2 & H3 & H4).
  split; [exact H1|]. split; [exact H2|]. split; [exact H3|].
  apply H4. reflexivity.
Defined.

(** C3 fails as stated: two structurally equal claims payloads whose keys
    were inserted in different orders are serialized differently by the
    signer, and the tokens differ. *)
Lemma signer_serialization_follows_key_order :
  well_formed Sample.payload1 = true
  /\ deep_equal Sample.payload1 Sample.payload2 = true
  /\ stable_stringify Sample.payload1 = stable_stringify Sample.payload2
  /\ JSON_stringify Sample.payload1 <> JSON_stringify Sample.payload2
  /\ createToken (L := Reference.lib) Sample.w (VStr "app1") (VStr "aud")
       (VStr "app1") "3m" Sample.payload1 (VStr "k1")
     <> createToken (L := Reference.lib) Sample.w (VStr "app1") (VStr "aud")
       (VStr "app1") "3m" Sample.payload2 (VStr "k1").
Proof.
  repeat split; try reflexivity; vm_compute; discriminate.
Qed.

(** ** The client factory *)

Lemma lookup_set_field_same (k : string) (v : value) (fs : obj) :
  lookup k (set_field k v fs) = Some v.
Proof.
  induction fs as [|[k' x] fs IH]; simpl.
  - now rewrite String.eqb_refl.
  - destruct (String.eqb k k') eqn:E; simpl.
    + now rewrite String.eqb_refl.
    + now rewrite E.
Qed.

Lemma lookup_set_field_other (k k' : string) (v : value) (fs : obj) :
  k <> k' -> lookup k (set_field k' v fs) = lookup k fs.
Proof.
  intros Hne. induction fs as [|[k'' x] fs IH]; simpl.
  - destruct (String.eqb_spec k k'); congruence.
  - destruct (String.eqb_spec k' k'') as [->|Hn]; simpl.
    + destruct (String.eqb_spec k k''); congruence.
    + destruct (String.eqb_spec k k''); congruence.
Qed.

Lemma field_set_prop_same (k : string) (v : value) (fs : obj) :
  field (set_prop (VObj fs) k v) k = v.
Proof. simpl. now rewrite lookup_set_field_same. Qed.

Lemma field_set_prop_other (k k' : string) (v : value) (fs : obj) :
  k <> k' -> field (set_prop (VObj fs) k' v) k = field (VObj fs) k.
Proof. intros H. simpl. now rewrite lookup_set_field_other. Qed.

Lemma exec_endpoint_default (s : string) :
  exec_endpoint (SIPHostedService_base_url ++ s) = Some "https://api.civic.com".
Proof. reflexivity. Qed.

Lemma prop_obj (fs : obj) (k : string) :
  prop (VObj fs) k = Ok (field (VObj fs) k).
Proof. reflexivity. Qed.

Lemma set_prop_obj (fs : obj) (k : string) (v : value) :
  set_prop (VObj fs) k v = VObj (set_field k v fs).
Proof. reflexivity. Qed.

Lemma newClient_inv (cfg : value) (cl : client) :
  newClient cfg = Ok cl ->
  exists fs, cfg = VObj fs
    /\ truthy (field cfg "appId") = true
    /\ truthy (field cfg "appSecret") = true
    /\ truthy (field cfg "prvKey") = true
    /\ config cl = with_defaults cfg
    /\ hexpub cl = SIPHostedService_hexpub.
Proof.
  unfold newClient.
  destruct cfg as [| |b|n|s|l|fs]; try (simpl; discriminate).
  rewrite !prop_obj. cbn [rbind].
  destruct (truthy (field (VObj fs) "appId")); cbn [negb]; [|discriminate].
  destruct (truthy (field (VObj fs) "appSecret")); cbn [negb]; [|discriminate].
  destruct (truthy (field (VObj fs) "prvKey")); cbn [negb]; [|discriminate].
  cbv zeta. unfold with_defaults.
  set (c1 := if negb (truthy (field (VObj fs) "env")) then _ else _).
  assert (exists fs1, c1 = VObj fs1) as [fs1 E1].
  { subst c1. destruct (negb _); rewrite ?set_prop_obj; eauto. }
  clearbody c1. subst c1. rewrite prop_obj. cbn [rbind].
  intros H.
  destruct (if truthy (field (VObj fs1) "api") then _ else _) as [b0|e];
    cbn [rbind] in H; [|discriminate].
  match type of H with
  | match exec_endpoint ?u with _ => _ end = _ =>
      destruct (exec_endpoint u); [|discriminate]
  end.
  inversion H; subst cl; cbn [config hexpub].
  exists fs. repeat split.
Qed.

Lemma field_default_other (c : bool) (fs : obj) (k k' : string) (v : value) :
  k <> k' ->
  field (if c then set_prop (VObj fs) k' v else VObj fs) k = field (VObj fs) k.
Proof.
  intros H. destruct c; [now apply field_set_prop_other|reflexivity].
Qed.

Lemma default_is_obj (c : bool) (fs : obj) (k : string) (v : value) :
  exists fs', (if c then set_prop (VObj fs) k v else VObj fs) = VObj fs'.
Proof. destruct c; simpl; eauto. Qed.

Lemma with_defaults_env (fs : obj) :
  truthy (field (VObj fs) "env") = false ->
  field (with_defaults (VObj fs)) "env" = VStr "prod".
Proof.
  intros H. unfold with_defaults. rewrite H. cbn [negb].
  rewrite set_prop_obj.
  set (fs1 := set_field "env" (VStr "prod") fs).
  destruct (default_is_obj
              (negb (strict_neq (field (VObj fs1) "defaultContentType") VUndef))
              fs1 "defaultContentType" (VStr "application/json")) as [fs2 E2].
  rewrite E2, field_default_other by discriminate.
  rewrite <- E2, field_default_other by discriminate.
  subst fs1. rewrite <- set_prop_obj. apply field_set_prop_same.
Qed.

Lemma with_defaults_content (fs : obj) :
  field (VObj fs) "defaultContentType" = VUndef ->
  field (with_defaults (VObj fs)) "defaultContentType" = VStr "application/json".
Proof.
  intros H. unfold with_defaults.
  destruct (default_is_obj (negb (truthy (field (VObj fs) "env")))
              fs "env" (VStr "prod")) as [fs1 E1].
  assert (field (VObj fs1) "defaultContentType" = VUndef) as H1.
  { rewrite <- E1, field_default_other by discriminate. exact H. }
  rewrite E1, H1. cbn [strict_neq negb].
  rewrite set_prop_obj, field_default_other by discriminate.
  rewrite <- set_prop_obj. apply field_set_prop_same.
Qed.

Lemma with_defaults_accept (fs : obj) :
  field (VObj fs) "defaultAcceptType" = VUndef ->
  field (with_defaults (VObj fs)) "defaultAcceptType" = VStr "application/json".
Proof.
  intros H. unfold with_defaults.
  destruct (default_is_obj (negb (truthy (field (VObj fs) "env")))
              fs "env" (VStr "prod")) as [fs1 E1].
  rewrite E1.
  destruct (default_is_obj
              (negb (strict_neq (field (VObj fs1) "defaultContentType") VUndef))
              fs1 "defaultContentType" (VStr "application/json")) as [fs2 E2].
  assert (field (VObj fs2) "defaultAcceptType" = VUndef) as H2.
  { rewrite <- E2, field_default_other by discriminate.
    rewrite <- E1, field_default_other by discriminate. exact H. }
  rewrite E2, H2. cbn [strict_neq negb].
  apply field_set_prop_same.
Qed.

Lemma with_defaults_keeps (fs : obj) (k : string) :
  k <> "env" -> k <> "defaultContentType" -> k <> "defaultAcceptType" ->
  field (with_defaults (VObj fs)) k = field (VObj fs) k.
Proof.
  intros H1 H2 H3. unfold with_defaults.
  destruct (default_is_obj (negb (truthy (field (VObj fs) "env")))
              fs "env" (VStr "prod")) as [fs1 E1].
  rewrite E1.
  destruct (default_is_obj
              (negb (strict_neq (field (VObj fs1) "defaultContentType") VUndef))
              fs1 "defaultContentType" (VStr "application/json")) as [fs2 E2].
  rewrite E2, field_default_other by assumption.
  rewrite <- E2, field_default_other by assumption.
  rewrite <- E1. now apply field_default_other.
Qed.

Lemma newClient_default_service (fs : obj) :
  truthy (field (VObj fs) "appId") = true ->
  truthy (field (VObj fs) "appSecret") = true ->
  truthy (field (VObj fs) "prvKey") = true ->
  truthy (field (VObj fs) "api") = false ->
  exists cl, newClient (VObj fs) = Ok cl
             /\ base_url cl = SIPHostedService_base_url
             /\ endpoint cl = "https://api.civic.com".
Proof.
  intros Ha Hs Hp Hapi. unfold newClient.
  rewrite !prop_obj. cbn [rbind]. rewrite Ha, Hs, Hp. cbn [negb]. cbv zeta.
  destruct (default_is_obj (negb (truthy (field (VObj fs) "env")))
              fs "env" (VStr "prod")) as [fs1 E1].
  assert (field (VObj fs1) "api" = field (VObj fs) "api") as A.
  { rewrite <- E1. apply field_default_other. discriminate. }
  rewrite E1, prop_obj. cbn [rbind]. rewrite A, Hapi. cbn [rbind].
  rewrite exec_endpoint_default.
  eexists. repeat split.
Qed.

(** C10: a configuration that is undefined, or in which the application
    identifier, the application secret or the private key is missing or
    empty, makes [newClient] throw, so that no client is returned; a
    client that is returned has [env] set to prod and the content and
    accept types set to application/json where the configuration left
    them out, and a configuration with the three credentials and no
    [api] override does get a client. *)
Theorem newClient_checks_and_defaults (cfg : value) :
  ((cfg = VUndef
    \/ exists k, In k ["appId"; "appSecret"; "prvKey"]
                 /\ (field cfg k = VUndef \/ field cfg k = VStr ""))
   -> exists e, newClient cfg = Throw e)
  /\ (forall cl, newClient cfg = Ok cl ->
        (field cfg "env" = VUndef -> field (config cl) "env" = VStr "prod")
        /\ (field cfg "defaultContentType" = VUndef ->
            field (config cl) "defaultContentType" = VStr "application/json")
        /\ (field cfg "defaultAcceptType" = VUndef ->
            field (config cl) "defaultAcceptType" = VStr "application/json"))
  /\ (forall fs, cfg = VObj fs ->
        truthy (field cfg "appId") = true ->
        truthy (field cfg "appSecret") = true ->
        truthy (field cfg "prvKey") = true ->
        truthy (field cfg "api") = false ->
        exists cl, newClient cfg = Ok cl).
Proof.
  split; [|split].
  - intros H. destruct (newClient cfg) as [cl|e] eqn:E; [|eauto].
    exfalso. apply newClient_inv in E as (fs & -> & Ha & Hs & Hp & _).
    destruct H as [H|(k & Hk & Hv)]; [discriminate|].
    simpl in Hk.
    destruct Hk as [<-|[<-|[<-|[]]]]; destruct Hv as [Hv|Hv];
      rewrite Hv in *; discriminate.
  - intros cl E. apply newClient_inv in E as (fs & -> & _ & _ & _ & Hc & _).
    rewrite Hc. repeat split; intros H.
    + apply with_defaults_env. now rewrite H.
    + now apply with_defaults_content.
    + now apply with_defaults_accept.
  - intros fs -> Ha Hs Hp Hapi.
    destruct (newClient_default_service fs Ha Hs Hp Hapi) as (cl & E & _).
    eauto.
Qed.

Lemma newClient_checks_and_defaults_witness :
  (exists e, newClient (VObj [("appId", VStr "app1"); ("prvKey", VStr "k1")])
             = Throw e)
  /\ (exists cl, newClient Sample.cfg = Ok cl).
Proof.
  split.
  - apply (proj1 (newClient_checks_and_defaults
                    (VObj [("appId", VStr "app1"); ("prvKey", VStr "k1")]))).
    right. exists "appSecret". split; [simpl; auto|left; reflexivity].
  - apply (proj2 (proj2 (newClient_checks_and_defaults Sample.cfg))
             [("appId", VStr "app1"); ("appSecret", VStr "5ec");
              ("prvKey", VStr "k1")]); reflexivity.
Defined.

Example newClient_sample : newClient Sample.cfg = Ok Sample.cl.
Proof. reflexivity. Qed.

(** ** The authorization header and the payload unwrapper *)

Lemma with_defaults_obj (fs : obj) : exists fs', with_defaults (VObj fs) = VObj fs'.
Proof.
  unfold with_defaults.
  destruct (default_is_obj (negb (truthy (field (VObj fs) "env")))
              fs "env" (VStr "prod")) as [fs1 ->].
  destruct (default_is_obj
              (negb (strict_neq (field (VObj fs1) "defaultContentType") VUndef))
              fs1 "defaultContentType" (VStr "application/json")) as [fs2 ->].
  apply default_is_obj.
Qed.

(** What the closures read from the configuration of a client. *)
Lemma client_credentials (cfg : value) (cl : client) (k : string) :
  newClient cfg = Ok cl ->
  In k ["appId"; "appSecret"; "prvKey"] ->
  prop (config cl) k = Ok (field cfg k).
Proof.
  intros E Hk. apply newClient_inv in E as (fs & -> & _ & _ & _ & Hc & _).
  destruct (with_defaults_obj fs) as [fs' E'].
  rewrite Hc, E', prop_obj, <- E'. f_equal.
  simpl in Hk.
  destruct Hk as [<-|[<-|[<-|[]]]]; apply with_defaults_keeps; discriminate.
Qed.

Section ClientProperties.
Context {L : Library}.

(** C6: the authorization header is the scheme tag Civic and a space, the
    assertion, a dot and the extension tag, where the assertion is
    created with the application identifier as issuer and subject, the
    service base URL as audience, the three-minute expiry and the data
    claim made of method and path, in this order, and the extension is
    computed over the request body with the application secret. *)
Theorem makeAuthorizationHeader_format (cfg : value) (cl : client) (w : world)
  (targetPath targetMethod requestBody : value) :
  newClient cfg = Ok cl ->
  makeAuthorizationHeader cl w targetPath targetMethod requestBody
  = let* jwtToken :=
      createToken w (field cfg "appId") (VStr (base_url cl)) (field cfg "appId")
        "3m" (VObj [("method", targetMethod); ("path", targetPath)])
        (field cfg "prvKey") in
    Ok ("Civic " ++ jwtToken ++ "."
          ++ createCivicExt requestBody (field cfg "appSecret")).
Proof.
  intros E. unfold makeAuthorizationHeader.
  rewrite (client_credentials cfg cl "appId" E) by (simpl; auto).
  rewrite (client_credentials cfg cl "prvKey" E) by (simpl; auto).
  rewrite (client_credentials cfg cl "appSecret" E) by (simpl; auto).
  cbn [rbind]. destruct (createToken _ _ _ _ _ _ _); reflexivity.
Qed.

(** C1: in every run of [verifyAndDecrypt] a decryption comes after a
    verification of the envelope's data, with the 60-second grace
    period, that returned true; and when the verification does not
    return true the run throws, with the message that the token could
    not be verified when it returned false, and decrypts nothing. *)
Theorem verifyAndDecrypt_verifies_first (cl : client) (w : world)
  (payload : value) :
  let (log, r) := verifyAndDecrypt cl w payload in
  (forall pre ciphertext secret post,
      log = (pre ++ EvDecrypt ciphertext secret :: post)%list ->
      exists token,
        prop payload "data" = Ok token
        /\ verify w token (VStr (hexpub cl)) (Some grace_options) = Ok true
        /\ In (EvVerify token (VStr (hexpub cl)) (Some grace_options) (Ok true))
              pre)
  /\ (forall token,
        prop payload "data" = Ok token ->
        verify w token (VStr (hexpub cl)) (Some grace_options) <> Ok true ->
        (exists e, r = Throw e) /\ existsb is_decrypt log = false)
  /\ (forall token,
        prop payload "data" = Ok token ->
        verify w token (VStr (hexpub cl)) (Some grace_options) = Ok false ->
        r = Throw (JsError
                     "JWT Token containing encrypted data could not be verified")).
Proof.
  unfold verifyAndDecrypt, bind, lift, call, ret, throw.
  destruct (prop payload "data") as [token|e0].
  2:{ split; [|split]; try discriminate.
      intros pre c s post Hlog. destruct pre; discriminate. }
  destruct (verify w token (VStr (hexpub cl)) (Some grace_options))
    as [[|]|e1] eqn:Ev; cbn [negb].
  2,3: split; [|split];
       [ intros pre c s post Hlog; scan_log pre
       | intros t Ht Hv; split; [eauto|reflexivity]
       | intros t Ht Hv; inversion Ht; subst;
         first [reflexivity | congruence] ].
  assert (forall (log : list event) (r : result value),
             (forall pre c s post,
                 log = (pre ++ EvDecrypt c s :: post)%list ->
                 In (EvVerify token (VStr (hexpub cl)) (Some grace_options)
                       (Ok true)) pre) ->
             (forall pre c s post,
                 log = (pre ++ EvDecrypt c s :: post)%list ->
                 exists token0,
                   Ok token = Ok token0
                   /\ verify w token0 (VStr (hexpub cl)) (Some grace_options)
                      = Ok true
                   /\ In (EvVerify token0 (VStr (hexpub cl))
                            (Some grace_options) (Ok true)) pre)
             /\ (forall token0, Ok token = Ok token0 ->
                   verify w token0 (VStr (hexpub cl)) (Some grace_options)
                   <> Ok true ->
                   (exists e, r = Throw e) /\ existsb is_decrypt log = false)
             /\ (forall token0, Ok token = Ok token0 ->
                   verify w token0 (VStr (hexpub cl)) (Some grace_options)
                   = Ok false ->
                   r = Throw (JsError
                     "JWT Token containing encrypted data could not be verified")))
    as K.
  { intros log r Hpre. split; [|split].
    - intros pre c s post Hlog. exists token. eauto.
    - intros t Ht Hv. inversion Ht; subst. congruence.
    - intros t Ht Hv. inversion Ht; subst. congruence. }
  destruct (decode token) as [d|e2]; cbn [app].
  2:{ apply K. intros pre c s post Hlog. scan_log pre. }
  destruct (prop d "payloadObj") as [po|e3]; cbn [app].
  2:{ apply K. intros pre c s post Hlog. scan_log pre. }
  destruct (prop po "data") as [ct|e4]; cbn [app].
  2:{ apply K. intros pre c s post Hlog. scan_log pre. }
  destruct (prop payload "encrypted") as [enc|e5]; cbn [app].
  2:{ apply K. intros pre c s post Hlog. scan_log pre. }
  destruct (truthy enc); cbn [app].
  2:{ apply K. intros pre c s post Hlog. scan_log pre. }
  destruct (prop (config cl) "appSecret") as [sec|e6]; cbn [app].
  2:{ apply K. intros pre c s post Hlog. scan_log pre. }
  apply K. intros pre c s post Hlog. scan_log pre.
  inversion Hlog; subst. simpl. auto.
Qed.

End ClientProperties.

Lemma makeAuthorizationHeader_format_witness :
  makeAuthorizationHeader (L := Reference.lib) Sample.cl Sample.w
    (VStr "scopeRequest/authCode") (VStr "POST") Sample.body1
  = let* jwtToken :=
      createToken (L := Reference.lib) Sample.w (VStr "app1")
        (VStr "https://api.civic.com/sip/") (VStr "app1") "3m"
        (VObj [("method", VStr "POST"); ("path", VStr "scopeRequest/authCode")])
        (VStr "k1") in
    Ok ("Civic " ++ jwtToken ++ "."
          ++ createCivicExt (L := Reference.lib) Sample.body1 (VStr "5ec")).
Proof.
  apply (makeAuthorizationHeader_format (L := Reference.lib) Sample.cfg
           Sample.cl Sample.w (VStr "scopeRequest/authCode") (VStr "POST")
           Sample.body1).
  reflexivity.
Defined.

Lemma verifyAndDecrypt_verifies_first_witness :
  exists token,
    prop (Sample.envelope true) "data" = Ok token
    /\ verify (L := Reference.lib) Sample.w token (VStr SIPHostedService_hexpub)
         (Some grace_options) = Ok true.
Proof.
  pose proof (verifyAndDecrypt_verifies_first (L := Reference.lib)
                Sample.cl Sample.w (Sample.envelope true)) as H.
  assert (verifyAndDecrypt (L := Reference.lib) Sample.cl Sample.w
            (Sample.envelope true)
          = ([EvVerify (Sample.service_token (VStr "aes(5ec)42"))
                (VStr SIPHostedService_hexpub) (Some grace_options) (Ok true);
              EvDecode (Sample.service_token (VStr "aes(5ec)42"));
              EvDecrypt (VStr "aes(5ec)42") (VStr "5ec")],
             Ok (VStr "42"))) as E by (vm_compute; reflexivity).
  rewrite E in H. destruct H as [H _].
  destruct (H [EvVerify (Sample.service_token (VStr "aes(5ec)42"))
                 (VStr SIPHostedService_hexpub) (Some grace_options) (Ok true);
               EvDecode (Sample.service_token (VStr "aes(5ec)42"))]
              (VStr "aes(5ec)42") (VStr "5ec") [] eq_refl)
    as (token & Hd & Hv & _).
  exists token. split; assumption.
Defined.

Section UnwrapProperties.
Context {L : Library}.

Lemma verify_true_claims (w : world) (token pubhex : value)
  (acceptable : option obj) :
  verify w token pubhex acceptable = Ok true ->
  exists h p sig fs,
    compact_split token = Some (h, p, sig)
    /\ readSafeJSONString p = VObj fs.
Proof.
  unfold verify, JWS_verifyJWT.
  destruct (compact_split token) as [[[h p] sig]|]; [|discriminate].
  destruct (readSafeJSONString h); try discriminate.
  destruct (readSafeJSONString p) as [| | | | | |fs] eqn:Hp; try discriminate.
  intros _. exists h, p, sig, fs. split; [reflexivity|exact Hp].
Qed.

Lemma verified_data_claim (w : world) (token pubhex : value)
  (acceptable : option obj) :
  verify w token pubhex acceptable = Ok true ->
  (let* decodedToken := decode token in
   let* payloadObj := prop decodedToken "payloadObj" in
   prop payloadObj "data") = Ok (data_claim token).
Proof.
  intros H. apply verify_true_claims in H as (h & p & sig & fs & Hs & Hp).
  unfold decode, JWS_parse, data_claim. rewrite Hs. cbn [rbind].
  rewrite prop_obj. cbn [rbind field lookup String.eqb Ascii.eqb Bool.eqb].
  rewrite Hp. reflexivity.
Qed.

(** C7: for an envelope whose data passed the verification,
    [verifyAndDecrypt] returns what the decryption of the assertion's
    data claim with the application secret returns when [encrypted] is
    true, and the data claim itself, with no decryption made, when
    [encrypted] is false. *)
Theorem verifyAndDecrypt_result (cfg : value) (cl : client) (w : world)
  (payload token : value) :
  newClient cfg = Ok cl ->
  prop payload "data" = Ok token ->
  verify w token (VStr (hexpub cl)) (Some grace_options) = Ok true ->
  (field payload "encrypted" = VBool true ->
   verifyAndDecrypt cl w payload
   = ([EvVerify token (VStr (hexpub cl)) (Some grace_options) (Ok true);
       EvDecode token;
       EvDecrypt (data_claim token) (field cfg "appSecret")],
      decrypt (data_claim token) (field cfg "appSecret")))
  /\ (field payload "encrypted" = VBool false ->
      verifyAndDecrypt cl w payload
      = ([EvVerify token (VStr (hexpub cl)) (Some grace_options) (Ok true);
          EvDecode token],
         Ok (data_claim token))).
Proof.
  intros Ecl Hdata Hv.
  pose proof (verified_data_claim _ _ _ _ Hv) as Hd.
  pose proof (client_credentials cfg cl "appSecret" Ecl) as Hsec.
  assert (prop payload "encrypted" = Ok (field payload "encrypted")) as Henc.
  { destruct payload; try reflexivity; discriminate. }
  unfold verifyAndDecrypt, bind, lift, call, ret, throw.
  rewrite Hdata, Hv, Henc. cbn [negb].
  destruct (decode token) as [d|e]; [|discriminate]. cbn [rbind] in Hd.
  destruct (prop d "payloadObj") as [po|e]; [|discriminate]. cbn [rbind] in Hd.
  rewrite Hd, Hsec by (simpl; auto).
  split; intros ->; reflexivity.
Qed.

(** X17: when the transport answers a status other than 200, or fails,
    [exchangeCode] throws, and its run holds no call of the verifier, of
    the decoder or of the decryption, only the request at most; for a
    reply with another status what it throws is the error with the
    message about exchanging the code. *)
Theorem exchangeCode_failure_skips_unwrap (cl : client) (w : world)
  (jwtToken : value) :
  transport_fails w ->
  let (log, r) := exchangeCode cl w jwtToken in
  (exists e, r = Throw e)
  /\ forallb is_request log = true
  /\ (forall req authType params resp,
        In (EvRequest req authType params) log ->
        makeRequest w req authType params = Ok resp ->
        r = Throw (JsError "Error exchanging code for data: ")).
Proof.
  intros Hw. unfold exchangeCode, bind, lift, call, ret, throw, try_catch.
  destruct (makeAuthorizationHeader _ _ _ _ _) as [authHeader|e0].
  2:{ repeat split; eauto. intros ? ? ? ? []. }
  match goal with
  | |- context [makeRequest w ?req ?a ?p] =>
      set (rq := req) in *; set (au := a) in *; set (pa := p) in *
  end.
  clearbody rq au pa. pose proof (Hw rq au pa) as Hr.
  destruct (makeRequest w rq au pa) as [resp|e1] eqn:Er.
  - apply Z.eqb_neq in Hr. rewrite Hr. cbn. repeat split; eauto.
  - assert (forall req authType params resp,
               In (EvRequest req authType params) [EvRequest rq au pa] ->
               makeRequest w req authType params <> Ok resp) as K.
    { intros req a p resp [Hin|[]]. injection Hin as <- <- <-. congruence. }
    destruct (error_data e1) as [d|e2]; cbn.
    2:{ repeat split; eauto. intros ? ? ? ? Hin Hresp. now apply K in Hresp. }
    destruct (prop d "message") as [m|e3]; cbn;
      (repeat split; eauto; intros ? ? ? ? Hin Hresp; now apply K in Hresp).
Qed.

End UnwrapProperties.

Lemma verifyAndDecrypt_result_witness :
  verifyAndDecrypt (L := Reference.lib) Sample.cl Sample.w (Sample.envelope true)
  = ([EvVerify (Sample.service_token (VStr "aes(5ec)42"))
        (VStr SIPHostedService_hexpub) (Some grace_options) (Ok true);
      EvDecode (Sample.service_token (VStr "aes(5ec)42"));
      EvDecrypt (VStr "aes(5ec)42") (VStr "5ec")],
     Ok (VStr "42"))
  /\ verifyAndDecrypt (L := Reference.lib) Sample.cl Sample.w
       (Sample.envelope false)
     = ([EvVerify (Sample.service_token (VObj [("name", VStr "Alice")]))
           (VStr SIPHostedService_hexpub) (Some grace_options) (Ok true);
         EvDecode (Sample.service_token (VObj [("name", VStr "Alice")]))],
        Ok (VObj [("name", VStr "Alice")])).
Proof.
  split.
  - apply (proj1 (verifyAndDecrypt_result (L := Reference.lib) Sample.cfg
                    Sample.cl Sample.w (Sample.envelope true)
                    (Sample.service_token (VStr "aes(5ec)42"))
                    eq_refl eq_refl ltac:(vm_compute; reflexivity))).
    reflexivity.
  - apply (proj2 (verifyAndDecrypt_result (L := Reference.lib) Sample.cfg
                    Sample.cl Sample.w (Sample.envelope false)
                    (Sample.service_token (VObj [("name", VStr "Alice")]))
                    eq_refl eq_refl ltac:(vm_compute; reflexivity))).
    reflexivity.
Defined.

Lemma exchangeCode_failure_skips_unwrap_witness :
  let (log, r) := exchangeCode (L := Reference.lib) Sample.cl Sample.w
                    (VStr "code") in
  r = Throw (JsError "Error exchanging code for data: ")
  /\ forallb is_request log = true.
Proof.
  pose proof (exchangeCode_failure_skips_unwrap (L := Reference.lib)
                Sample.cl Sample.w (VStr "code")) as H.
  destruct (exchangeCode (L := Reference.lib) Sample.cl Sample.w (VStr "code"))
    as [log r] eqn:E.
  destruct H as (_ & Hlog & Hr).
  { intros req a p. simpl. lia. }
  split; [|exact Hlog].
  vm_compute in E. injection E as <- _.
  eapply Hr; [left; reflexivity|reflexivity].
Defined.

(** C5, at a failing reply and at a failing transport: the error
    [exchangeCode] throws for the status 403 carries neither the status
    nor the body of the reply, and for a transport error without a
    [data] field it is the TypeError raised inside the handler, which
    carries nothing of the cause. *)
Theorem exchangeCode_error_drops_cause :
  snd (exchangeCode (L := Reference.lib) Sample.cl Sample.w (VStr "code"))
  = Throw (JsError "Error exchanging code for data: ")
  /\ snd (exchangeCode (L := Reference.lib) Sample.cl Sample.w_down (VStr "code"))
     = Throw (JsTypeError "Cannot read property 'message' of undefined").
Proof. split; vm_compute; reflexivity. Qed.

(** ** The token module *)

(** The accepted algorithms after the merge: ES256 first, then whatever
    the caller's list held from its second entry on. *)
Lemma verify_options_alg (a : obj) :
  verify_options (Some a)
  = set_field "alg"
      (VArr (VStr ALGO
               :: tl match lookup "alg" a with
                     | Some (VArr dl) => dl
                     | Some (VObj fs) => match array_like fs with
                                         | Some l => l
                                         | None => []
                                         end
                     | _ => []
                     end)) a.
Proof.
  unfold verify_options, merge. cbn [merge_value].
  destruct (lookup "alg" a) as [[| | | | | |]|]; reflexivity.
Qed.

(** With no list of the caller's, or a list of one entry, the accepted
    algorithms are exactly ES256. *)
Lemma verify_options_alg_forced (acceptable : option obj) :
  match acceptable with
  | None => True
  | Some a => match lookup "alg" a with
              | None | Some (VArr []) | Some (VArr [_]) => True
              | _ => False
              end
  end ->
  lookup "alg" (verify_options acceptable) = Some (VArr [VStr ALGO]).
Proof.
  destruct acceptable as [a|]; [|reflexivity].
  rewrite verify_options_alg, lookup_set_field_same.
  destruct (lookup "alg" a) as [[| | | | |[|x [|y l]]|]|]; intros H;
    try contradiction; reflexivity.
Qed.

(** C8, at a caller's list of two algorithms: the list [verify] hands to
    the library keeps the caller's second entry, and a token whose
    header names that algorithm is accepted. *)
Theorem verify_keeps_listed_algorithm :
  verify_options (Some Sample.accept_two)
  = [("alg", VArr [VStr "ES256"; VStr "ES384"])]
  /\ (let* d := decode (L := Reference.lib) Sample.token_es384 in
      let* h := prop d "headerObj" in prop h "alg") = Ok (VStr "ES384")
  /\ verify (L := Reference.lib) Sample.w Sample.token_es384 (VStr "k1")
       (Some Sample.accept_two) = Ok true.
Proof. repeat split; vm_compute; reflexivity. Qed.

Lemma verify_options_none : verify_options None = [("alg", VArr [VStr ALGO])].
Proof. reflexivity. Qed.

(** C2, as the code has it: a token created for a payload verifies, with
    no options, under the public key of the pair, and decodes to
    exactly that payload, when the verification reads its clock inside
    the token's time window, [iat <= now <= exp]; the library is taken
    to read back the header and the claims it serialized, to split the
    token it joined, and to accept under the public key the signature
    made with the private key. *)
Theorem createToken_verify_decode {L : Library} (w w' : world)
  (issuer audience subject payload prvKeyHex pubhex : value)
  (expiresIn h p sig : string) :
  let header := [("alg", VStr ALGO); ("typ", VStr "JWT")] in
  let content := [("jti", VStr (uuidV4 w));
                  ("iat", VNum (timestamp_now w));
                  ("exp", VNum (timestamp_add (timestamp_now w) expiresIn));
                  ("iss", issuer);
                  ("aud", audience);
                  ("sub", subject);
                  ("data", payload)] in
  JSON_stringify (VObj header) = Some h ->
  JSON_stringify (VObj content) = Some p ->
  JSON_parse h = Some (VObj header) ->
  JSON_parse p = Some (VObj content) ->
  ecdsa_sign {| curve := CURVE; prvKeyHex := prvKeyHex; pubKeyHex := VUndef;
                isPrivate := true; isPublic := false |} h p = Ok sig ->
  ecdsa_verify ALGO {| curve := CURVE; prvKeyHex := VUndef; pubKeyHex := pubhex;
                       isPrivate := false; isPublic := true |} h p sig = Ok true ->
  compact_split (VStr (compact h p sig)) = Some (h, p, sig) ->
  timestamp_now w <= int (IntDate_getNow w')
                  <= timestamp_add (timestamp_now w) expiresIn ->
  createToken w issuer audience subject expiresIn payload prvKeyHex
  = Ok (compact h p sig)
  /\ verify w' (VStr (compact h p sig)) pubhex None = Ok true
  /\ (let* decodedToken := decode (VStr (compact h p sig)) in
      let* payloadObj := prop decodedToken "payloadObj" in
      prop payloadObj "data") = Ok payload.
Proof.
  intros header content Hh Hp Hph Hpp Hsign Hver Hsplit [Hiat Hexp].
  assert (createToken w issuer audience subject expiresIn payload prvKeyHex
          = Ok (compact h p sig)) as Hc.
  { unfold createToken. fold header content. rewrite Hh, Hp.
    unfold JWS_sign. rewrite Hsign. reflexivity. }
  assert (verify w' (VStr (compact h p sig)) pubhex None = Ok true) as Hv.
  { unfold verify, JWS_verifyJWT. rewrite Hsplit, verify_options_none.
    unfold readSafeJSONString. rewrite Hph, Hpp.
    subst header content.
    cbn [lookup String.eqb Ascii.eqb Bool.eqb str_in existsb ALGO negb orb].
    rewrite Hver. cbn [rbind negb].
    replace (timestamp_add (timestamp_now w) expiresIn + 0
             <? int (IntDate_getNow w')) with false
      by (symmetry; apply Z.ltb_ge; lia).
    replace (int (IntDate_getNow w') <? timestamp_now w - 0) with false
      by (symmetry; apply Z.ltb_ge; lia).
    reflexivity. }
  split; [exact Hc|]. split; [exact Hv|].
  rewrite (verified_data_claim _ _ _ _ Hv).
  unfold data_claim, readSafeJSONString. rewrite Hsplit, Hpp.
  reflexivity.
Qed.

Lemma createToken_verify_decode_witness :
  exists token,
    createToken (L := Reference.lib) Sample.w (VStr "app1") (VStr "aud")
      (VStr "app1") "3m" Sample.payload2 (VStr "k1") = Ok token
    /\ verify (L := Reference.lib) Sample.w (VStr token) (VStr "k1") None
       = Ok true
    /\ (let* decodedToken := decode (L := Reference.lib) (VStr token) in
        let* payloadObj := prop decodedToken "payloadObj" in
        prop payloadObj "data") = Ok Sample.payload2.
Proof.
  eexists.
  eapply (createToken_verify_decode (L := Reference.lib) Sample.w Sample.w
            (VStr "app1") (VStr "aud") (VStr "app1") Sample.payload2
            (VStr "k1") (VStr "k1") "3m");
    try (vm_compute; reflexivity).
  vm_compute. split; discriminate.
Defined.

(** C2 fails as stated: with a valid key pair, a token verified after its
    expiry, or in the very second it was signed in, is refused; and a
    payload with a field that holds [undefined] is not the data claim
    the token decodes to. *)
Lemma verify_depends_on_clock :
  (exists token,
      createToken (L := Reference.lib) Sample.w (VStr "app1") (VStr "aud")
        (VStr "app1") "3m" Sample.payload2 (VStr "k1") = Ok token
      /\ verify (L := Reference.lib) Sample.w (VStr token) (VStr "k1") None
         = Ok true
      /\ verify (L := Reference.lib) Sample.w_late (VStr token) (VStr "k1") None
         = Ok false
      /\ verify (L := Reference.lib) Sample.w_same_second (VStr token)
           (VStr "k1") None = Ok false)
  /\ (exists token,
        createToken (L := Reference.lib) Sample.w (VStr "app1") (VStr "aud")
          (VStr "app1") "3m" Sample.payload_undef (VStr "k1") = Ok token
        /\ (let* decodedToken := decode (L := Reference.lib) (VStr token) in
            let* payloadObj := prop decodedToken "payloadObj" in
            prop payloadObj "data") = Ok (VObj [])
        /\ VObj [] <> Sample.payload_undef).
Proof.
  split; eexists; repeat split; try (vm_compute; reflexivity); discriminate.
Qed.

(** * Further properties of the code *)

(** ** More on the client factory *)

(** All that [newClient] puts in the client it returns. *)
Lemma newClient_client (cfg : value) (cl : client) :
  newClient cfg = Ok cl ->
  config cl = with_defaults cfg
  /\ (truthy (field cfg "api") = true -> exists a, field cfg "api" = VStr a)
  /\ base_url cl
     = (if truthy (field cfg "api")
        then match field cfg "api" with
             | VStr a => if negb (endsWith_slash a) then a ++ "/" else a
             | _ => EmptyString
             end
        else SIPHostedService_base_url)
  /\ exec_endpoint (base_url cl ++ to_string (field (config cl) "env"))
     = Some (endpoint cl)
  /\ pathComponent cl
     = substring_from (String.length (endpoint cl))
         (base_url cl ++ to_string (field (config cl) "env"))
  /\ authType cl
     = (if strict_neq (field cfg "accessKey") VUndef
           && strict_neq (field cfg "accessKey") (VStr "")
           && strict_neq (field cfg "secretKey") VUndef
           && strict_neq (field cfg "secretKey") (VStr "")
        then "AWS_IAM" else "NONE").
Proof.
  intros E. pose proof (newClient_inv cfg cl E) as (fs & -> & _ & _ & _ & Hc & _).
  revert E. unfold newClient.
  rewrite !prop_obj. cbn [rbind].
  destruct (truthy (field (VObj fs) "appId")); cbn [negb]; [|discriminate].
  destruct (truthy (field (VObj fs) "appSecret")); cbn [negb]; [|discriminate].
  destruct (truthy (field (VObj fs) "prvKey")); cbn [negb]; [|discriminate].
  cbv zeta.
  set (c1 := if negb (truthy (field (VObj fs) "env")) then _ else _).
  destruct (default_is_obj (negb (truthy (field (VObj fs) "env")))
              fs "env" (VStr "prod")) as [fs1 E1].
  change (c1 = VObj fs1) in E1.
  assert (field c1 "api" = field (VObj fs) "api") as Hapi.
  { subst c1. apply field_default_other. discriminate. }
  set (c3 := if negb (strict_neq (field (if negb (strict_neq
                (field c1 "defaultContentType") VUndef) then _ else _)
                "defaultAcceptType") VUndef) then _ else _).
  assert (c3 = with_defaults (VObj fs)) as H3 by reflexivity.
  assert (field c3 "accessKey" = field (VObj fs) "accessKey") as Hak.
  { rewrite H3. apply with_defaults_keeps; discriminate. }
  assert (field c3 "secretKey" = field (VObj fs) "secretKey") as Hsk.
  { rewrite H3. apply with_defaults_keeps; discriminate. }
  clearbody c3.
  rewrite E1, prop_obj. cbn [rbind]. rewrite <- E1, Hapi. clearbody c1.
  intros E.
  destruct (truthy (field (VObj fs) "api")).
  - destruct (field (VObj fs) "api"); cbn [rbind] in E; try discriminate.
    destruct (exec_endpoint _) eqn:Ex in E; [|discriminate].
    inversion E; subst cl; cbn [config base_url endpoint pathComponent authType].
    rewrite Hak, Hsk. repeat split; eauto.
  - cbn [rbind] in E.
    destruct (exec_endpoint _) eqn:Ex in E; [|discriminate].
    inversion E; subst cl; cbn [config base_url endpoint pathComponent authType].
    rewrite Hak, Hsk. repeat split; auto. discriminate.
Qed.

Lemma endsWith_slash_app (a : string) : endsWith_slash (a ++ "/") = true.
Proof.
  induction a as [|c a IH]; [reflexivity|].
  cbn [append]. destruct a as [|d a]; [reflexivity|exact IH].
Qed.

Lemma strip_prefix_app (p s r : string) :
  strip_prefix p s = Some r -> s = p ++ r.
Proof.
  revert s. induction p as [|a p IH]; intros s; simpl.
  - now intros [= ->].
  - destruct s as [|b s]; [discriminate|].
    destruct (Ascii.eqb_spec a b) as [->|_]; [|discriminate].
    intros H. now rewrite (IH _ H).
Qed.

Lemma span_host_split (s : string) :
  exists rest,
    s = span_host s ++ rest
    /\ has_slash (span_host s) = false
    /\ (rest = "" \/ exists r, rest = "/" ++ r).
Proof.
  induction s as [|c s (rest & E & Hs & Hr)]; simpl.
  - exists "". auto.
  - unfold is_slash. destruct (Ascii.eqb_spec c "/") as [->|Hc].
    + exists (String "/" s). repeat split. right. now exists s.
    + exists rest. simpl. rewrite <- E. repeat split; auto.
      unfold is_slash. apply Ascii.eqb_neq in Hc. now rewrite Hc.
Qed.

Lemma substring_from_app (a b : string) :
  substring_from (String.length a) (a ++ b) = b.
Proof. induction a as [|c a IH]; simpl; auto. Qed.

Lemma append_assoc (a b c : string) : (a ++ b) ++ c = a ++ b ++ c.
Proof. induction a as [|x a IH]; simpl; congruence. Qed.

Lemma exec_endpoint_split (url e : string) :
  exec_endpoint url = Some e ->
  exists host rest,
    url = e ++ rest
    /\ (e = "https://" ++ host \/ e = "http://" ++ host)
    /\ host <> ""
    /\ has_slash host = false
    /\ (rest = "" \/ exists r, rest = "/" ++ r).
Proof.
  unfold exec_endpoint.
  assert (forall scheme tail,
             url = scheme ++ tail ->
             match span_host tail with
             | "" => None
             | String c h => Some (scheme ++ String c h)
             end = Some e ->
             exists host rest,
               url = e ++ rest /\ e = scheme ++ host /\ host <> ""
               /\ has_slash host = false
               /\ (rest = "" \/ exists r, rest = "/" ++ r)) as K.
  { intros scheme tail Hu H.
    destruct (span_host_split tail) as (rest & Et & Hs & Hr).
    destruct (span_host tail) as [|c h] eqn:Eh; [discriminate|].
    injection H as <-. exists (String c h), rest. repeat split; auto.
    - rewrite Hu, Et. now rewrite append_assoc.
    - discriminate. }
  destruct (strip_prefix "https://" url) as [tail|] eqn:E1.
  - intros H. apply strip_prefix_app in E1.
    destruct (K _ _ E1 H) as (host & rest & ? & ? & ? & ? & ?).
    exists host, rest. auto 10.
  - destruct (strip_prefix "http://" url) as [tail|] eqn:E2; [|discriminate].
    intros H. apply strip_prefix_app in E2.
    destruct (K _ _ E2 H) as (host & rest & ? & ? & ? & ? & ?).
    exists host, rest. auto 10.
Qed.

(** X1: the base URL of a client ends with a slash: it is the hosted
    service's when the configuration has no [api], and the [api] string
    itself, with a slash added only where it has none at its end,
    otherwise. *)
Theorem newClient_base_url (cfg : value) (cl : client) :
  newClient cfg = Ok cl ->
  endsWith_slash (base_url cl) = true
  /\ (truthy (field cfg "api") = false ->
      base_url cl = "https://api.civic.com/sip/")
  /\ (forall a, field cfg "api" = VStr a -> a <> "" ->
        base_url cl = (if endsWith_slash a then a else a ++ "/")).
Proof.
  intros E. apply newClient_client in E as (_ & Hs & Hb & _).
  destruct (truthy (field cfg "api")) eqn:Ht.
  - destruct (Hs eq_refl) as [a Ha]. rewrite Ha in *.
    split; [|split; [discriminate|]].
    + rewrite Hb. destruct (endsWith_slash a) eqn:Ea; cbn [negb]; auto.
      apply endsWith_slash_app.
    + intros a' [= <-] _. rewrite Hb. now destruct (endsWith_slash a).
  - split; [now rewrite Hb|]. split; [now rewrite Hb|].
    intros a Ha Hne. rewrite Ha in Ht. simpl in Ht.
    destruct (String.eqb_spec a ""); [contradiction|discriminate].
Qed.

Lemma newClient_base_url_witness :
  exists cl, newClient Scenario.cfg_local = Ok cl
             /\ base_url cl = "http://localhost:3000/".
Proof.
  destruct (newClient Scenario.cfg_local) as [cl|e] eqn:E;
    [|vm_compute in E; discriminate].
  exists cl. split; [reflexivity|].
  apply (proj2 (proj2 (newClient_base_url Scenario.cfg_local cl E))
           "http://localhost:3000"); [reflexivity|discriminate].
Defined.

(** X2: the endpoint and the path component of a client split the URL it
    invokes, the base URL followed by the environment: the endpoint is
    the scheme, http or https, and a host that is not empty and has no
    slash, and the path component is all that follows, empty or
    starting with a slash. *)
Theorem newClient_endpoint_split (cfg : value) (cl : client) :
  newClient cfg = Ok cl ->
  base_url cl ++ to_string (field (config cl) "env")
  = endpoint cl ++ pathComponent cl
  /\ (exists host,
        (endpoint cl = "https://" ++ host \/ endpoint cl = "http://" ++ host)
        /\ host <> "" /\ has_slash host = false)
  /\ (pathComponent cl = "" \/ exists r, pathComponent cl = "/" ++ r).
Proof.
  intros E. apply newClient_client in E as (_ & _ & _ & Hx & Hp & _).
  apply exec_endpoint_split in Hx as (host & rest & Hu & He & Hh & Hs & Hr).
  rewrite Hp, Hu, substring_from_app. eauto 10.
Qed.

Lemma newClient_endpoint_split_witness :
  exists cl, newClient Scenario.cfg_local = Ok cl
             /\ "http://localhost:3000/dev" = endpoint cl ++ pathComponent cl.
Proof.
  destruct (newClient Scenario.cfg_local) as [cl|e] eqn:E;
    [|vm_compute in E; discriminate].
  exists cl. split; [reflexivity|].
  pose proof (proj1 (newClient_endpoint_split Scenario.cfg_local cl E)) as H.
  rewrite <- H. vm_compute in E. injection E as <-. reflexivity.
Defined.

Lemma strip_prefix_none_app (p q a s : string) :
  strip_prefix p a = None -> (String.length p <= String.length a)%nat ->
  strip_prefix (p ++ q) (a ++ s) = None.
Proof.
  revert a. induction p as [|x p IH]; intros a; simpl; [discriminate|].
  destruct a as [|y a]; simpl; [lia|].
  destruct (Ascii.eqb x y); [|reflexivity].
  intros H Hl. apply IH; [exact H|lia].
Qed.

Lemma exec_endpoint_no_scheme (a s : string) :
  strip_prefix "http" a = None -> (4 <= String.length a)%nat ->
  exec_endpoint (a ++ s) = None.
Proof.
  intros H Hl. unfold exec_endpoint.
  change "https://" with ("http" ++ "s://").
  change "http://" with ("http" ++ "://").
  now rewrite !strip_prefix_none_app.
Qed.

(** X3: with the three credentials in place, an [api] override that is a
    string without the http scheme at its start makes [newClient] throw
    the TypeError of reading the match of the URL pattern, and an [api]
    that is true, a number, an array or an object the TypeError of
    calling [endsWith] on it: no client is returned. *)
Theorem newClient_api_without_scheme (fs : obj) :
  truthy (field (VObj fs) "appId") = true ->
  truthy (field (VObj fs) "appSecret") = true ->
  truthy (field (VObj fs) "prvKey") = true ->
  truthy (field (VObj fs) "api") = true ->
  match field (VObj fs) "api" with
  | VStr a =>
      strip_prefix "http" a = None -> (4 <= String.length a)%nat ->
      newClient (VObj fs) = Throw (JsTypeError "Cannot read property '1' of null")
  | _ =>
      newClient (VObj fs)
      = Throw (JsTypeError "config.api.endsWith is not a function")
  end.
Proof.
  intros Ha Hs Hp Hapi. unfold newClient.
  rewrite !prop_obj. cbn [rbind]. rewrite Ha, Hs, Hp. cbn [negb]. cbv zeta.
  destruct (default_is_obj (negb (truthy (field (VObj fs) "env")))
              fs "env" (VStr "prod")) as [fs1 E1].
  assert (field (VObj fs1) "api" = field (VObj fs) "api") as A.
  { rewrite <- E1. apply field_default_other. discriminate. }
  rewrite E1, prop_obj. cbn [rbind]. rewrite A, Hapi.
  destruct (field (VObj fs) "api") as [| |b|n|a|l|o]; try reflexivity.
  intros Hn Hl. cbn [rbind].
  replace ((if negb (endsWith_slash a) then a ++ "/" else a) ++ _)
    with (a ++ (if negb (endsWith_slash a) then "/" else "")
            ++ to_string (field
                 (if negb (strict_neq (field
                    (if negb (strict_neq (field (VObj fs1) "defaultContentType")
                                VUndef)
                     then set_prop (VObj fs1) "defaultContentType"
                            (VStr "application/json")
                     else VObj fs1) "defaultAcceptType") VUndef)
                  then set_prop
                         (if negb (strict_neq
                                     (field (VObj fs1) "defaultContentType")
                                     VUndef)
                          then set_prop (VObj fs1) "defaultContentType"
                                 (VStr "application/json")
                          else VObj fs1)
                         "defaultAcceptType" (VStr "application/json")
                  else if negb (strict_neq (field (VObj fs1) "defaultContentType")
                                  VUndef)
                       then set_prop (VObj fs1) "defaultContentType"
                              (VStr "application/json")
                       else VObj fs1) "env")).
  2:{ destruct (negb (endsWith_slash a)); [now rewrite append_assoc|reflexivity]. }
  now rewrite exec_endpoint_no_scheme.
Qed.

Lemma newClient_api_without_scheme_witness :
  newClient Scenario.cfg_no_scheme
  = Throw (JsTypeError "Cannot read property '1' of null").
Proof.
  apply (newClient_api_without_scheme
           [("appId", VStr "app1"); ("appSecret", VStr "5ec");
            ("prvKey", VStr "k1"); ("api", VStr "localhost:3000")]
           eq_refl eq_refl eq_refl eq_refl eq_refl).
  simpl. lia.
Defined.

Lemma strict_neq_undef (v : value) : v <> VUndef -> strict_neq v VUndef = true.
Proof. destruct v; intros H; try reflexivity. contradiction. Qed.

(** X4: [newClient] changes nothing the caller configured: in the client
    it returns every field of the configuration has the caller's value,
    but for an [env] that is empty or otherwise falsy and content or
    accept types left undefined, which get their defaults. *)
Theorem newClient_keeps_config (cfg : value) (cl : client) (k : string) :
  newClient cfg = Ok cl ->
  (k = "env" -> truthy (field cfg "env") = true) ->
  (k = "defaultContentType" -> field cfg "defaultContentType" <> VUndef) ->
  (k = "defaultAcceptType" -> field cfg "defaultAcceptType" <> VUndef) ->
  field (config cl) k = field cfg k.
Proof.
  intros E He Hc Ha.
  apply newClient_inv in E as (fs & -> & _ & _ & _ & -> & _).
  unfold with_defaults.
  set (b1 := negb (truthy (field (VObj fs) "env"))).
  destruct (default_is_obj b1 fs "env" (VStr "prod")) as [fs1 E1].
  assert (field (VObj fs1) k = field (VObj fs) k) as H1.
  { rewrite <- E1. destruct (String.eqb_spec k "env") as [->|Hne].
    - subst b1. now rewrite (He eq_refl).
    - now apply field_default_other. }
  rewrite E1.
  set (b2 := negb (strict_neq (field (VObj fs1) "defaultContentType") VUndef)).
  destruct (default_is_obj b2 fs1 "defaultContentType"
              (VStr "application/json")) as [fs2 E2].
  assert (field (VObj fs2) k = field (VObj fs) k) as H2.
  { rewrite <- E2, <- H1.
    destruct (String.eqb_spec k "defaultContentType") as [->|Hne].
    - subst b2. rewrite H1 at 1.
      now rewrite (strict_neq_undef _ (Hc eq_refl)).
    - now apply field_default_other. }
  rewrite E2, <- H2.
  destruct (String.eqb_spec k "defaultAcceptType") as [->|Hne].
  - rewrite H2 at 1. now rewrite (strict_neq_undef _ (Ha eq_refl)).
  - now apply field_default_other.
Qed.

Lemma newClient_keeps_config_witness :
  exists cl, newClient Scenario.cfg_local = Ok cl
             /\ field (config cl) "env" = VStr "dev".
Proof.
  destruct (newClient Scenario.cfg_local) as [cl|e] eqn:E;
    [|vm_compute in E; discriminate].
  exists cl. split; [reflexivity|].
  apply (newClient_keeps_config Scenario.cfg_local cl "env" E);
    [reflexivity|discriminate|discriminate].
Defined.

(** ** More on the token module and the payload unwrapper *)

(** X5: whatever options the caller of [verify] passes, the library gets
    each of them unchanged, but for [alg]; and the accepted algorithms
    start with ES256, so that ES256 is always accepted. *)
Theorem verify_options_keeps (a : obj) (k : string) :
  k <> "alg" ->
  lookup k (verify_options (Some a)) = lookup k a
  /\ exists rest,
       lookup "alg" (verify_options (Some a)) = Some (VArr (VStr ALGO :: rest))
       /\ str_in ALGO (VStr ALGO :: rest) = true.
Proof.
  intros Hk. rewrite verify_options_alg. split.
  - now apply lookup_set_field_other.
  - rewrite lookup_set_field_same. eexists. split; reflexivity.
Qed.

Lemma verify_options_keeps_witness :
  lookup "gracePeriod" (verify_options (Some grace_options))
  = Some (VNum (int 60)).
Proof.
  apply (proj1 (verify_options_keeps grace_options "gracePeriod"
                  ltac:(discriminate))).
Defined.

Section MoreUnwrap.
Context {L : Library}.

(** X6: a run of [verifyAndDecrypt] that can read the envelope's data
    calls [verify] once, first; it calls [decode] only when [verify]
    returned true, and [decrypt] at most once, last.  A run that cannot
    read the data calls nothing. *)
Theorem verifyAndDecrypt_calls (cl : client) (w : world) (payload : value) :
  let (log, r) := verifyAndDecrypt cl w payload in
  match prop payload "data" with
  | Throw e => log = [] /\ r = Throw e
  | Ok token =>
      let isValid := verify w token (VStr (hexpub cl)) (Some grace_options) in
      let verification :=
        EvVerify token (VStr (hexpub cl)) (Some grace_options) isValid in
      (isValid <> Ok true /\ log = [verification] /\ exists e, r = Throw e)
      \/ (isValid = Ok true
          /\ (log = [verification; EvDecode token]
              \/ exists ciphertext secret,
                   log = [verification; EvDecode token;
                          EvDecrypt ciphertext secret]))
  end.
Proof.
  unfold verifyAndDecrypt, bind, lift, call, ret, throw.
  destruct (prop payload "data") as [token|e0]; [|split; reflexivity].
  cbv zeta.
  destruct (verify w token (VStr (hexpub cl)) (Some grace_options))
    as [[|]|e1]; cbn [negb].
  2,3: cbv beta iota zeta; left;
       split; [discriminate|split; [reflexivity|eauto]].
  destruct (decode token) as [d|e2];
    [|cbv beta iota zeta; right; split; [reflexivity|left; reflexivity]].
  destruct (prop d "payloadObj") as [po|e3];
    [|cbv beta iota zeta; right; split; [reflexivity|left; reflexivity]].
  destruct (prop po "data") as [ct|e4];
    [|cbv beta iota zeta; right; split; [reflexivity|left; reflexivity]].
  destruct (prop payload "encrypted") as [enc|e5];
    [|cbv beta iota zeta; right; split; [reflexivity|left; reflexivity]].
  destruct (truthy enc);
    [|cbv beta iota zeta; right; split; [reflexivity|left; reflexivity]].
  destruct (prop (config cl) "appSecret") as [sec|e6];
    cbv beta iota zeta; right; split; try reflexivity;
    [right; do 2 eexists; reflexivity|left; reflexivity].
Qed.

Lemma verifyAndDecrypt_no_request (cl : client) (w : world) (payload : value) :
  existsb is_request (fst (verifyAndDecrypt cl w payload)) = false.
Proof.
  pose proof (verifyAndDecrypt_calls cl w payload) as H.
  destruct (verifyAndDecrypt cl w payload) as [log r]. cbn [fst].
  destruct (prop payload "data") as [token|e].
  - destruct H as [(_ & -> & _)|(_ & [->|(c & s & ->)])]; reflexivity.
  - destruct H as [-> _]. reflexivity.
Qed.

(** X7: for an envelope whose data passed the verification, the flag
    [encrypted] is read for its truth: any truthy flag, the string false
    among them, has the data claim decrypted with the application
    secret, and any falsy one has it returned as it is. *)
Theorem verifyAndDecrypt_flag (cfg : value) (cl : client) (w : world)
  (payload token : value) :
  newClient cfg = Ok cl ->
  prop payload "data" = Ok token ->
  verify w token (VStr (hexpub cl)) (Some grace_options) = Ok true ->
  snd (verifyAndDecrypt cl w payload)
  = (if truthy (field payload "encrypted")
     then decrypt (data_claim token) (field cfg "appSecret")
     else Ok (data_claim token))
  /\ existsb is_decrypt (fst (verifyAndDecrypt cl w payload))
     = truthy (field payload "encrypted").
Proof.
  intros Ecl Hdata Hv.
  pose proof (verified_data_claim _ _ _ _ Hv) as Hd.
  pose proof (client_credentials cfg cl "appSecret" Ecl) as Hsec.
  assert (prop payload "encrypted" = Ok (field payload "encrypted")) as Henc.
  { destruct payload; try reflexivity; discriminate. }
  unfold verifyAndDecrypt, bind, lift, call, ret, throw.
  rewrite Hdata, Hv, Henc. cbn [negb].
  destruct (decode token) as [d|e]; [|discriminate]. cbn [rbind] in Hd.
  destruct (prop d "payloadObj") as [po|e]; [|discriminate]. cbn [rbind] in Hd.
  rewrite Hd, Hsec by (simpl; auto).
  destruct (truthy (field payload "encrypted")); split; reflexivity.
Qed.

End MoreUnwrap.

Lemma verifyAndDecrypt_flag_witness :
  snd (verifyAndDecrypt (L := Reference.lib) Sample.cl Sample.w
         Scenario.envelope_flag) = Ok (VStr "42").
Proof.
  apply (proj1 (verifyAndDecrypt_flag (L := Reference.lib) Sample.cfg
                  Sample.cl Sample.w Scenario.envelope_flag
                  (Sample.service_token (VStr "aes(5ec)42"))
                  eq_refl eq_refl ltac:(vm_compute; reflexivity))).
Defined.

Section MoreVerify.
Context {L : Library}.

Lemma verify_other_algorithm (w : world) (token pubhex : value) (a : obj)
  (h p sig : string) (hdr : obj) :
  lookup "alg" a = None ->
  compact_split token = Some (h, p, sig) ->
  readSafeJSONString h = VObj hdr ->
  lookup "alg" hdr <> Some (VStr ALGO) ->
  verify w token pubhex (Some a) = Ok false.
Proof.
  intros Ha Hs Hh Halg. unfold verify, JWS_verifyJWT.
  rewrite Hs, Hh, verify_options_alg, lookup_set_field_same, Ha.
  destruct (readSafeJSONString p); try reflexivity.
  destruct (lookup "alg" hdr) as [[| | | |alg| |]|]; try reflexivity.
  cbn [tl str_in existsb].
  destruct (String.eqb_spec alg ALGO) as [->|_]; [congruence|reflexivity].
Qed.

(** X8: an envelope whose token names, in its header, another algorithm
    than ES256, or none, is refused by [verifyAndDecrypt]: the one call
    made is the verification, which returns false, and the error says
    that the token could not be verified. *)
Theorem verifyAndDecrypt_rejects_other_algorithm (cl : client) (w : world)
  (payload token : value) (h p sig : string) (hdr : obj) :
  prop payload "data" = Ok token ->
  compact_split token = Some (h, p, sig) ->
  readSafeJSONString h = VObj hdr ->
  lookup "alg" hdr <> Some (VStr ALGO) ->
  verifyAndDecrypt cl w payload
  = ([EvVerify token (VStr (hexpub cl)) (Some grace_options) (Ok false)],
     Throw (JsError "JWT Token containing encrypted data could not be verified")).
Proof.
  intros Hd Hs Hh Halg.
  pose proof (verify_other_algorithm w token (VStr (hexpub cl)) grace_options
                h p sig hdr eq_refl Hs Hh Halg) as Hv.
  unfold verifyAndDecrypt, bind, lift, call, throw. rewrite Hd, Hv.
  reflexivity.
Qed.

End MoreVerify.

Lemma verifyAndDecrypt_rejects_other_algorithm_witness :
  verifyAndDecrypt (L := Reference.lib) Sample.cl Sample.w
    Scenario.envelope_es384
  = ([EvVerify Sample.token_es384 (VStr SIPHostedService_hexpub)
        (Some grace_options) (Ok false)],
     Throw (JsError "JWT Token containing encrypted data could not be verified")).
Proof.
  eapply (verifyAndDecrypt_rejects_other_algorithm (L := Reference.lib)
            Sample.cl Sample.w Scenario.envelope_es384 Sample.token_es384);
    [ reflexivity
    | vm_compute; reflexivity
    | vm_compute; reflexivity
    | vm_compute; discriminate ].
Defined.

(** ** More on the exchange *)

Section MoreExchange.
Context {L : Library}.

(** X10: [exchangeCode] signs before it sends: when the authorization
    header cannot be made it throws that error and sends nothing;
    otherwise the first call of its run is the one request it ever
    makes, a POST of the body that holds the code to the path component
    followed by /scopeRequest/authCode, with the header made for that
    very body as Authorization and the length of the body's JSON text as
    Content-Length. *)
Theorem exchangeCode_request (cl : client) (w : world) (jwtToken : value) :
  let body := VObj [("authToken", jwtToken)] in
  match makeAuthorizationHeader cl w (VStr "scopeRequest/authCode")
          (VStr "POST") body with
  | Throw e => exchangeCode cl w jwtToken = ([], Throw e)
  | Ok authHeader =>
      exists s rest,
        JSON_stringify body = Some s
        /\ fst (exchangeCode cl w jwtToken)
           = EvRequest
               {| verb := "POST";
                  path := pathComponent cl ++ "/scopeRequest/authCode";
                  headers := [];
                  queryParams := [];
                  body := body |}
               (authType cl)
               [("headers",
                 VObj [("Content-Length",
                        VNum (int (Z.of_nat (String.length s))));
                       ("Accept", VStr "*/*");
                       ("Authorization", VStr authHeader)]);
                ("queryParams", VObj [])]
             :: rest
        /\ existsb is_request rest = false
  end.
Proof.
  intros body. unfold exchangeCode. fold body.
  destruct (makeAuthorizationHeader cl w _ _ body) as [authHeader|e0];
    [|reflexivity].
  assert (exists s, JSON_stringify body = Some s) as [s Hs]
    by (cbn [JSON_stringify body]; eauto).
  rewrite Hs. exists s.
  unfold bind, lift, call, ret, throw, try_catch.
  match goal with
  | |- context [makeRequest w ?req ?a ?p] =>
      destruct (makeRequest w req a p) as [resp|e1]
  end.
  - destruct (status resp =? 200); cbn [negb].
    + pose proof (verifyAndDecrypt_no_request cl w (data resp)) as Hn.
      destruct (verifyAndDecrypt cl w (data resp)) as [vlog [v|e2]];
        cbn [fst] in Hn.
      * exists vlog. one_request.
      * destruct (error_data e2) as [d|e3]; [|exists vlog; one_request].
        cbn. destruct (prop d "message") as [m|e4]; exists vlog; one_request.
    + exists []. one_request.
  - destruct (error_data e1) as [d|e3]; [|exists []; one_request].
    cbn. destruct (prop d "message") as [m|e4]; exists []; one_request.
Qed.

End MoreExchange.

Section ExchangeOutcome.
Context {L : Library}.

(** How [exchangeCode] ends once the header is made, by the reply. *)
Lemma exchangeCode_outcome (cl : client) (w : world) (jwtToken : value)
  (authHeader : string) :
  makeAuthorizationHeader cl w (VStr "scopeRequest/authCode") (VStr "POST")
    (VObj [("authToken", jwtToken)]) = Ok authHeader ->
  (forall resp, transport_answers w resp -> status resp = 200 ->
     forall v, snd (verifyAndDecrypt cl w (data resp)) = Ok v ->
       snd (exchangeCode cl w jwtToken) = Ok v)
  /\ (forall resp, transport_answers w resp -> status resp = 200 ->
        forall e, snd (verifyAndDecrypt cl w (data resp)) = Throw e ->
          (forall v, e <> JsThrown v) ->
          snd (exchangeCode cl w jwtToken)
          = Throw (JsTypeError "Cannot read property 'message' of undefined"))
  /\ (forall x d m, transport_rejects w x ->
        prop x "data" = Ok d -> prop d "message" = Ok m ->
        exchangeCode cl w jwtToken
        = ([EvRequest
              {| verb := "POST";
                 path := pathComponent cl ++ "/scopeRequest/authCode";
                 headers := [];
                 queryParams := [];
                 body := VObj [("authToken", jwtToken)] |}
              (authType cl)
              [("headers",
                VObj [("Content-Length",
                       VNum (int match JSON_stringify
                                         (VObj [("authToken", jwtToken)]) with
                                 | Some s => Z.of_nat (String.length s)
                                 | None => 0
                                 end));
                      ("Accept", VStr "*/*");
                      ("Authorization", VStr authHeader)]);
               ("queryParams", VObj [])]],
           Throw (Error_new m))).
Proof.
  intros Hh. unfold exchangeCode. rewrite Hh.
  unfold bind, lift, call, ret, throw, try_catch.
  split; [|split].
  - intros resp Hw Hs v Hv. rewrite Hw, Hs. cbn [Z.eqb Pos.eqb negb].
    destruct (verifyAndDecrypt cl w (data resp)) as [vlog r].
    cbn [snd] in Hv. subst r. reflexivity.
  - intros resp Hw Hs e He Hne. rewrite Hw, Hs. cbn [Z.eqb Pos.eqb negb].
    destruct (verifyAndDecrypt cl w (data resp)) as [vlog r].
    cbn [snd] in He. subst r.
    destruct e as [m|m|v]; [reflexivity|reflexivity|].
    now destruct (Hne v).
  - intros x d m Hw Hd Hm. rewrite Hw. cbn [error_data].
    rewrite Hd. cbn [app]. rewrite Hm. reflexivity.
Qed.

(** X11: when the service answers 200, [exchangeCode] returns what
    [verifyAndDecrypt] returns for the body of the reply. *)
Theorem exchangeCode_success (cl : client) (w : world) (jwtToken v : value)
  (authHeader : string) (resp : response) :
  makeAuthorizationHeader cl w (VStr "scopeRequest/authCode") (VStr "POST")
    (VObj [("authToken", jwtToken)]) = Ok authHeader ->
  transport_answers w resp ->
  status resp = 200 ->
  snd (verifyAndDecrypt cl w (data resp)) = Ok v ->
  snd (exchangeCode cl w jwtToken) = Ok v.
Proof.
  intros Hh Hw Hs Hv.
  exact (proj1 (exchangeCode_outcome cl w jwtToken authHeader Hh)
           resp Hw Hs v Hv).
Qed.

(** X12: when the service answers 200 and the token in the reply fails
    the verification, the error of [verifyAndDecrypt] is caught by the
    handler of [exchangeCode], which reads [error.data.message] off it:
    what the caller gets is the TypeError of that read, not the error
    that the token could not be verified. *)
Theorem exchangeCode_masks_verification_error (cl : client) (w : world)
  (jwtToken token : value) (authHeader : string) (resp : response) :
  makeAuthorizationHeader cl w (VStr "scopeRequest/authCode") (VStr "POST")
    (VObj [("authToken", jwtToken)]) = Ok authHeader ->
  transport_answers w resp ->
  status resp = 200 ->
  prop (data resp) "data" = Ok token ->
  verify w token (VStr (hexpub cl)) (Some grace_options) = Ok false ->
  snd (verifyAndDecrypt cl w (data resp))
  = Throw (JsError "JWT Token containing encrypted data could not be verified")
  /\ snd (exchangeCode cl w jwtToken)
     = Throw (JsTypeError "Cannot read property 'message' of undefined").
Proof.
  intros Hh Hw Hs Hd Hv.
  assert (snd (verifyAndDecrypt cl w (data resp))
          = Throw (JsError
                     "JWT Token containing encrypted data could not be verified"))
    as He.
  { unfold verifyAndDecrypt, bind, lift, call, throw. rewrite Hd, Hv.
    reflexivity. }
  split; [exact He|].
  apply (proj1 (proj2 (exchangeCode_outcome cl w jwtToken authHeader Hh))
           resp Hw Hs _ He).
  discriminate.
Qed.

(** X13: when the transport rejects with a value that has a [data]
    object, the error [exchangeCode] throws has the [message] of that
    object as its whole message, and an empty message when the object
    has none: the prefix about exchanging the code is not in it. *)
Theorem exchangeCode_transport_message (cl : client) (w : world)
  (jwtToken x d m : value) (authHeader : string) :
  makeAuthorizationHeader cl w (VStr "scopeRequest/authCode") (VStr "POST")
    (VObj [("authToken", jwtToken)]) = Ok authHeader ->
  transport_rejects w x ->
  prop x "data" = Ok d ->
  prop d "message" = Ok m ->
  snd (exchangeCode cl w jwtToken)
  = Throw (JsError (match m with VUndef => "" | _ => to_string m end))
  /\ existsb is_decrypt (fst (exchangeCode cl w jwtToken)) = false.
Proof.
  intros Hh Hw Hd Hm.
  rewrite (proj2 (proj2 (exchangeCode_outcome cl w jwtToken authHeader Hh))
             x d m Hw Hd Hm).
  split; reflexivity.
Qed.

(** X14: the assertion inside the authorization header, once decoded,
    has as its header object the ES256 header and as its payload object
    the claims [makeAuthorizationHeader] asked for: issuer and subject
    the application identifier, audience the base URL, issue time the
    clock reading, expiry three minutes after it as the library adds
    them, and the data claim made of method and path. *)
Theorem makeAuthorizationHeader_assertion (cfg : value) (cl : client)
  (w : world) (targetPath targetMethod requestBody : value) (h p sig : string) :
  let header := [("alg", VStr "ES256"); ("typ", VStr "JWT")] in
  let content := [("jti", VStr (uuidV4 w));
                  ("iat", VNum (timestamp_now w));
                  ("exp", VNum (timestamp_add (timestamp_now w) "3m"));
                  ("iss", field cfg "appId");
                  ("aud", VStr (base_url cl));
                  ("sub", field cfg "appId");
                  ("data", VObj [("method", targetMethod);
                                 ("path", targetPath)])] in
  newClient cfg = Ok cl ->
  JSON_stringify (VObj header) = Some h ->
  JSON_stringify (VObj content) = Some p ->
  JSON_parse h = Some (VObj header) ->
  JSON_parse p = Some (VObj content) ->
  ecdsa_sign {| curve := CURVE; prvKeyHex := field cfg "prvKey";
                pubKeyHex := VUndef; isPrivate := true; isPublic := false |}
    h p = Ok sig ->
  compact_split (VStr (compact h p sig)) = Some (h, p, sig) ->
  makeAuthorizationHeader cl w targetPath targetMethod requestBody
  = Ok ("Civic " ++ compact h p sig ++ "."
          ++ createCivicExt requestBody (field cfg "appSecret"))
  /\ (let* decodedToken := decode (VStr (compact h p sig)) in
      prop decodedToken "headerObj") = Ok (VObj header)
  /\ (let* decodedToken := decode (VStr (compact h p sig)) in
      prop decodedToken "payloadObj") = Ok (VObj content).
Proof.
  intros header content E Hh Hp Hph Hpp Hsign Hsplit. split; [|split].
  - unfold makeAuthorizationHeader.
    rewrite (client_credentials cfg cl "appId" E) by (simpl; auto).
    rewrite (client_credentials cfg cl "prvKey" E) by (simpl; auto).
    rewrite (client_credentials cfg cl "appSecret" E) by (simpl; auto).
    cbn [rbind]. unfold createToken, JWT_EXPIRATION, ALGO.
    fold header content. rewrite Hh, Hp.
    unfold JWS_sign. rewrite Hsign. reflexivity.
  - unfold decode, JWS_parse, readSafeJSONString.
    now rewrite Hsplit, Hph, Hpp.
  - unfold decode, JWS_parse, readSafeJSONString.
    now rewrite Hsplit, Hph, Hpp.
Qed.

(** C4, at a transport that fails with an error that has no [data]: the
    handler of [exchangeCode] means to build the error about exchanging
    the code, but reading [error.data.message] throws first, so that
    what the caller gets is that TypeError; the verifier is not called
    in that run. *)
Theorem exchangeCode_transport_error_type (cl : client) (w : world)
  (jwtToken x : value) (authHeader : string) :
  makeAuthorizationHeader cl w (VStr "scopeRequest/authCode") (VStr "POST")
    (VObj [("authToken", jwtToken)]) = Ok authHeader ->
  transport_rejects w x ->
  prop x "data" = Ok VUndef ->
  snd (exchangeCode cl w jwtToken)
  = Throw (JsTypeError "Cannot read property 'message' of undefined")
  /\ forallb is_request (fst (exchangeCode cl w jwtToken)) = true.
Proof.
  intros Hh Hw Hd. unfold exchangeCode. rewrite Hh.
  unfold bind, lift, call, ret, throw, try_catch.
  rewrite Hw. cbn [error_data]. rewrite Hd. split; reflexivity.
Qed.

(** X15: for a code whose objects, if it has any, list their keys in
    ascending order, a string among them, the text the extension tag of
    [exchangeCode] is computed over is the JSON text of the body, the
    one whose length is sent as Content-Length. *)
Theorem exchangeCode_tag_text (jwtToken secret : value) :
  key_sorted jwtToken = true ->
  createCivicExt (VObj [("authToken", jwtToken)]) secret
  = Base64_stringify
      (HmacSHA256 (JSON_stringify (VObj [("authToken", jwtToken)])) secret).
Proof.
  intros Hk. unfold createCivicExt.
  rewrite (JSON_stringify_key_sorted (VObj [("authToken", jwtToken)])).
  - reflexivity.
  - simpl. now rewrite Hk.
Qed.

End ExchangeOutcome.

Lemma exchangeCode_success_witness :
  snd (exchangeCode (L := Reference.lib) Sample.cl Scenario.w_ok (VStr "code"))
  = Ok (VObj [("name", VStr "Alice")]).
Proof.
  destruct (makeAuthorizationHeader (L := Reference.lib) Sample.cl Scenario.w_ok
              (VStr "scopeRequest/authCode") (VStr "POST")
              (VObj [("authToken", VStr "code")])) as [h|e] eqn:Hh;
    [|vm_compute in Hh; discriminate].
  apply (exchangeCode_success (L := Reference.lib) Sample.cl Scenario.w_ok
           (VStr "code") (VObj [("name", VStr "Alice")]) h Scenario.reply_ok Hh);
    [ intros req a p; reflexivity
    | reflexivity
    | vm_compute; reflexivity ].
Defined.

Lemma exchangeCode_masks_verification_error_witness :
  snd (exchangeCode (L := Reference.lib) Sample.cl Scenario.w_forged
         (VStr "code"))
  = Throw (JsTypeError "Cannot read property 'message' of undefined").
Proof.
  destruct (makeAuthorizationHeader (L := Reference.lib) Sample.cl
              Scenario.w_forged (VStr "scopeRequest/authCode") (VStr "POST")
              (VObj [("authToken", VStr "code")])) as [h|e] eqn:Hh;
    [|vm_compute in Hh; discriminate].
  apply (exchangeCode_masks_verification_error (L := Reference.lib)
           Sample.cl Scenario.w_forged (VStr "code") Scenario.forged_token
           h Scenario.reply_forged Hh);
    [ intros req a p; reflexivity
    | reflexivity
    | reflexivity
    | vm_compute; reflexivity ].
Defined.

Lemma exchangeCode_transport_message_witness :
  snd (exchangeCode (L := Reference.lib) Sample.cl Scenario.w_refused
         (VStr "code"))
  = Throw (JsError "Forbidden").
Proof.
  destruct (makeAuthorizationHeader (L := Reference.lib) Sample.cl
              Scenario.w_refused (VStr "scopeRequest/authCode") (VStr "POST")
              (VObj [("authToken", VStr "code")])) as [h|e] eqn:Hh;
    [|vm_compute in Hh; discriminate].
  apply (exchangeCode_transport_message (L := Reference.lib)
           Sample.cl Scenario.w_refused (VStr "code") Scenario.refusal
           (VObj [("message", VStr "Forbidden")]) (VStr "Forbidden") h Hh);
    [ intros req a p; reflexivity
    | reflexivity
    | reflexivity ].
Defined.

Lemma exchangeCode_tag_text_witness :
  createCivicExt (L := Reference.lib) (VObj [("authToken", VStr "code")])
    (VStr "5ec")
  = Base64_stringify (Library := Reference.lib)
      (HmacSHA256 (Library := Reference.lib)
         (JSON_stringify (VObj [("authToken", VStr "code")])) (VStr "5ec")).
Proof.
  apply (exchangeCode_tag_text (L := Reference.lib) (VStr "code") (VStr "5ec")).
  reflexivity.
Defined.

Lemma makeAuthorizationHeader_assertion_witness :
  exists token,
    makeAuthorizationHeader (L := Reference.lib) Sample.cl Sample.w
      (VStr "scopeRequest/authCode") (VStr "POST") Sample.body1
    = Ok ("Civic " ++ token ++ "."
            ++ createCivicExt (L := Reference.lib) Sample.body1 (VStr "5ec"))
    /\ (let* decodedToken := decode (L := Reference.lib) (VStr token) in
        prop decodedToken "headerObj")
       = Ok (VObj [("alg", VStr "ES256"); ("typ", VStr "JWT")])
    /\ (let* decodedToken := decode (L := Reference.lib) (VStr token) in
        prop decodedToken "payloadObj")
       = Ok (VObj [("jti", VStr "id-1");
                   ("iat", VNum 1000500);
                   ("exp", VNum 1180500);
                   ("iss", VStr "app1");
                   ("aud", VStr "https://api.civic.com/sip/");
                   ("sub", VStr "app1");
                   ("data", VObj [("method", VStr "POST");
                                  ("path", VStr "scopeRequest/authCode")])]).
Proof.
  eexists.
  eapply (makeAuthorizationHeader_assertion (L := Reference.lib) Sample.cfg
            Sample.cl Sample.w (VStr "scopeRequest/authCode") (VStr "POST")
            Sample.body1);
    [ reflexivity
    | vm_compute; reflexivity
    | vm_compute; reflexivity
    | vm_compute; reflexivity
    | vm_compute; reflexivity
    | vm_compute; reflexivity
    | vm_compute; reflexivity ].
Defined.

Lemma exchangeCode_transport_error_type_witness :
  snd (exchangeCode (L := Reference.lib) Sample.cl Sample.w_down (VStr "code"))
  = Throw (JsTypeError "Cannot read property 'message' of undefined")
  /\ forallb is_request
       (fst (exchangeCode (L := Reference.lib) Sample.cl Sample.w_down
               (VStr "code"))) = true.
Proof.
  destruct (makeAuthorizationHeader (L := Reference.lib) Sample.cl
              Sample.w_down (VStr "scopeRequest/authCode") (VStr "POST")
              (VObj [("authToken", VStr "code")])) as [h|e] eqn:Hh;
    [|vm_compute in Hh; discriminate].
  apply (exchangeCode_transport_error_type (L := Reference.lib)
           Sample.cl Sample.w_down (VStr "code")
           (VObj [("message", VStr "socket hang up")]) h Hh);
    [ intros req a p; reflexivity
    | reflexivity ].
Defined.

Lemma strict_neq_false (a b : value) :
  strict_neq a b = false -> a = b.
Proof.
  destruct a, b; simpl; try discriminate; try reflexivity; intros H;
    apply negb_false_iff in H.
  - apply Bool.eqb_prop in H. now subst.
  - apply Z.eqb_eq in H. now subst.
  - apply String.eqb_eq in H. now subst.
Qed.

Lemma strict_neq_true (a b : value) :
  strict_neq a b = true -> (forall l, b <> VArr l) -> (forall fs, b <> VObj fs) ->
  a <> b.
Proof.
  intros H Hl Hf E. subst a.
  destruct b; simpl in H; try discriminate.
  - now rewrite Bool.eqb_reflx in H.
  - now rewrite Z.eqb_refl in H.
  - now rewrite String.eqb_refl in H.
  - now apply (Hl items).
  - now apply (Hf fields).
Qed.

(** X16: the requests of a client are signed for the gateway, with the
    authorization type AWS_IAM, exactly when the configuration holds
    both an access key and a secret key that are neither undefined nor
    the empty string; they go with the type NONE otherwise. *)
Theorem newClient_authType (cfg : value) (cl : client) :
  newClient cfg = Ok cl ->
  let present k := field cfg k <> VUndef /\ field cfg k <> VStr "" in
  (present "accessKey" /\ present "secretKey" -> authType cl = "AWS_IAM")
  /\ (~ (present "accessKey" /\ present "secretKey") -> authType cl = "NONE").
Proof.
  intros E present. apply newClient_client in E as (_ & _ & _ & _ & _ & ->).
  destruct (strict_neq (field cfg "accessKey") VUndef) eqn:A1;
    destruct (strict_neq (field cfg "accessKey") (VStr "")) eqn:A2;
    destruct (strict_neq (field cfg "secretKey") VUndef) eqn:S1;
    destruct (strict_neq (field cfg "secretKey") (VStr "")) eqn:S2;
    cbn [andb]; split; try reflexivity; intros H; exfalso;
    try (apply H; unfold present; repeat split;
         apply strict_neq_true; (assumption || discriminate));
    destruct H as [[H1 H2] [H3 H4]];
    repeat match goal with
           | X : strict_neq _ _ = false |- _ => apply strict_neq_false in X
           end;
    contradiction.
Qed.

Lemma newClient_authType_witness :
  exists cl, newClient Scenario.cfg_local = Ok cl /\ authType cl = "NONE".
Proof.
  destruct (newClient Scenario.cfg_local) as [cl|e] eqn:E;
    [|vm_compute in E; discriminate].
  exists cl. split; [reflexivity|].
  apply (proj2 (newClient_authType Scenario.cfg_local cl E)).
  intros [[H _] _]. now apply H.
Defined.
